(** * ChatCpp test scripts: a shallow embedding of
      scripts/run_tests_xray.py (class XrayTestRunner) and
      scripts/generate_xray_report.py (class XrayReportGenerator).

    Python strings are modelled as [String.string] (ASCII), Python [int]
    as [Z], dictionaries read with [.get] as stdpp [gmap]s.  Python
    floats are never inspected by the scripts beyond parsing, adding and
    printing them, so they are kept abstract (a Section variable [F] with
    the operations the code uses). *)

From Stdlib Require Import String Ascii ZArith NArith QArith Qround Bool List.
From stdpp Require Import base gmap strings.
Import ListNotations.

Open Scope bool_scope.
#[local] Set Warnings "-register-all".

(** ** Python string primitives used by the scripts *)
Module PyStr.

Local Open Scope string_scope.

Definition dq : string := String (ascii_of_nat 34) EmptyString.
Definition nl : string := String (ascii_of_nat 10) EmptyString.

(** [str.lower] / [str.upper] on the ASCII range. *)
Definition lower_char (c : ascii) : ascii :=
  let n := nat_of_ascii c in
  if (65 <=? n)%nat && (n <=? 90)%nat then ascii_of_nat (n + 32) else c.

Definition upper_char (c : ascii) : ascii :=
  let n := nat_of_ascii c in
  if (97 <=? n)%nat && (n <=? 122)%nat then ascii_of_nat (n - 32) else c.

Fixpoint lower (s : string) : string :=
  match s with
  | EmptyString => EmptyString
  | String c t => String (lower_char c) (lower t)
  end.

Fixpoint upper (s : string) : string :=
  match s with
  | EmptyString => EmptyString
  | String c t => String (upper_char c) (upper t)
  end.

(** [s.startswith(p)] *)
Fixpoint startswith (s p : string) {struct p} : bool :=
  match p, s with
  | EmptyString, _ => true
  | String c p', String d s' => Ascii.eqb c d && startswith s' p'
  | String _ _, EmptyString => false
  end.

(** [needle in hay] for two [str] values: substring test. *)
Fixpoint contains (needle hay : string) : bool :=
  startswith hay needle ||
  match hay with
  | EmptyString => false
  | String _ t => contains needle t
  end.

(** [str.isspace] on one ASCII character (what [int()] strips):
    tab, LF, VT, FF, CR, the separators 0x1c-0x1f, and space. *)
Definition isspace (c : ascii) : bool :=
  let n := nat_of_ascii c in
  ((9 <=? n)%nat && (n <=? 13)%nat) || ((28 <=? n)%nat && (n <=? 32)%nat).

Definition isdigit (c : ascii) : bool :=
  let n := nat_of_ascii c in (48 <=? n)%nat && (n <=? 57)%nat.

Definition digit_val (c : ascii) : Z := Z.of_nat (nat_of_ascii c - 48).

Fixpoint lstrip_l (l : list ascii) : list ascii :=
  match l with
  | [] => []
  | c :: t => if isspace c then lstrip_l t else l
  end.

Definition strip_l (l : list ascii) : list ascii :=
  rev (lstrip_l (rev (lstrip_l l))).

(** Digits after the first one: a single [_] may separate two digits. *)
Fixpoint digits_from (l : list ascii) (acc : Z) : option Z :=
  match l with
  | [] => Some acc
  | c :: t =>
      if isdigit c then digits_from t (acc * 10 + digit_val c)
      else if Ascii.eqb c "_"%char then
        match t with
        | d :: _ => if isdigit d then digits_from t acc else None
        | [] => None
        end
      else None
  end.

Definition parse_uint (l : list ascii) : option Z :=
  match l with
  | c :: t => if isdigit c then digits_from t (digit_val c) else None
  | [] => None
  end.

(** [int(s)] for a [str] argument, base 10: surrounding whitespace,
    an optional sign, then digits with single underscores between them;
    anything else raises [ValueError] (here [None]). *)
Definition py_int (s : string) : option Z :=
  match strip_l (list_ascii_of_string s) with
  | "+"%char :: r => parse_uint r
  | "-"%char :: r => option_map Z.opp (parse_uint r)
  | l => parse_uint l
  end.

End PyStr.

(** ** xml.etree.ElementTree elements *)
Module ET.

(** An [Element]: tag, attribute dict, [.text] and the child elements. *)
Inductive element : Type :=
  Element (tag : string) (attrib : gmap string string) (text : option string)
          (children : list element).

Definition tag (e : element) : string :=
  match e with Element t _ _ _ => t end.
Definition attrib (e : element) : gmap string string :=
  match e with Element _ a _ _ => a end.
Definition text (e : element) : option string :=
  match e with Element _ _ x _ => x end.
Definition children (e : element) : list element :=
  match e with Element _ _ _ cs => cs end.

(** [e.get(k)] *)
Definition get (e : element) (k : string) : option string := attrib e !! k.

(** [e.get(k, d)] with a [str] default *)
Definition get_or (e : element) (k d : string) : string := default d (get e k).

(** [e.find(t)] for a plain tag: the first direct child with that tag. *)
Definition find (e : element) (t : string) : option element :=
  List.find (fun c => String.eqb (tag c) t) (children e).

End ET.

Import ET.

(** ** The two JUnit XML parsers *)
Section Parsers.

(** Python floats: parsing with [float(str)] ([None] = [ValueError]),
    [float(0)], and [+]. *)
Variable F : Type.
Variable py_float : string -> option F.
Variable f0 : F.
Variable fadd : F -> F -> F.

(** [int(e.get(k, 0))]: an absent attribute gives [int(0) = 0]. *)
Definition int_attr (e : element) (k : string) : option Z :=
  match get e k with
  | None => Some 0%Z
  | Some v => PyStr.py_int v
  end.

(** [float(e.get(k, 0))] *)
Definition float_attr (e : element) (k : string) : option F :=
  match get e k with
  | None => Some f0
  | Some v => py_float v
  end.

(** *** XrayReportGenerator.parse_junit_xml *)

(** [{"message": x.get("message", ""), "type": x.get("type", ""),
      "content": x.text or ""}] *)
Record marker := Marker {
  m_message : string;
  m_type : string;
  m_content : string
}.

Definition marker_of (x : element) : marker :=
  Marker (get_or x "message" "") (get_or x "type" "") (default "" (text x)).

Record gtest := GTest {
  gt_name : string;
  gt_classname : string;
  gt_time : F;
  gt_status : string;
  gt_failure : option marker;
  gt_error : option marker;
  gt_skipped : option string
}.

(** One [testcase]: the three [if ... is not None] blocks run in turn,
    each overwriting [test["status"]]. *)
Definition parse_case (tc : element) : option gtest :=
  tm ← float_attr tc "time";
  let fl := find tc "failure" in
  let er := find tc "error" in
  let sk := find tc "skipped" in
  let st1 := if fl then "failed"%string else "passed"%string in
  let st2 := if er then "error"%string else st1 in
  let st3 := if sk then "skipped"%string else st2 in
  Some (GTest (get_or tc "name" "") (get_or tc "classname" "") tm st3
              (marker_of <$> fl) (marker_of <$> er)
              ((fun x => default "" (text x)) <$> sk)).

(** The [suite] dict.  Its literal lists the key ["tests"] twice: first
    [int(testsuite.get("tests", 0))] (evaluated, so it may raise), then
    [[]], which is the value the dict keeps. *)
Record gsuite := GSuite {
  gs_name : string;
  gs_tests : list gtest;
  gs_failures : Z;
  gs_errors : Z;
  gs_skipped : Z;
  gs_time : F;
  gs_timestamp : string
}.

Definition suite_literal (ts : element) : option gsuite :=
  _ ← int_attr ts "tests";
  fa ← int_attr ts "failures";
  er ← int_attr ts "errors";
  sk ← int_attr ts "skipped";
  tm ← float_attr ts "time";
  Some (GSuite (get_or ts "name" "") [] fa er sk tm (get_or ts "timestamp" "")).

Record summary := Summary {
  s_total : Z;
  s_passed : Z;
  s_failed : Z;
  s_skipped : Z;
  s_errors : Z;
  s_time : F
}.

Record gresults := GResults {
  testsuites : list gsuite;
  summary_of : summary
}.

Definition gresults_init : gresults :=
  GResults [] (Summary 0 0 0 0 0 f0).

(** [int += list] raises [TypeError]. *)
Definition py_iadd_int_list (n : Z) (l : list gtest) : option Z := None.

(** The loop [for testsuite in root]. *)
Fixpoint parse_suites (acc : gresults) (ss : list element) : option gresults :=
  match ss with
  | [] => Some acc
  | ts :: rest =>
      s0 ← suite_literal ts;
      cases ← mapM parse_case (children ts);
      let suite := GSuite (gs_name s0) cases (gs_failures s0) (gs_errors s0)
                          (gs_skipped s0) (gs_time s0) (gs_timestamp s0) in
      let sm := summary_of acc in
      total ← py_iadd_int_list (s_total sm) (gs_tests suite);
      parse_suites
        (GResults (testsuites acc ++ [suite])
           (Summary total (s_passed sm) (s_failed sm + gs_failures suite)
              (s_skipped sm + gs_skipped suite) (s_errors sm + gs_errors suite)
              (fadd (s_time sm) (gs_time suite))))
        rest
  end.

(** [parse_junit_xml]: [doc] is the outcome of [ET.parse] ([None] when the
    file is not well-formed XML); every exception makes it return [None]. *)
Definition parse_junit_xml (doc : option element) : option gresults :=
  root ← doc;
  r ← parse_suites gresults_init (children root);
  let sm := summary_of r in
  Some (GResults (testsuites r)
          (Summary (s_total sm)
             (s_total sm - s_failed sm - s_errors sm - s_skipped sm)
             (s_failed sm) (s_skipped sm) (s_errors sm) (s_time sm))).

(** *** XrayTestRunner.parse_test_results *)

Record rtest := RTest {
  rt_name : option string;
  rt_classname : option string;
  rt_time : F;
  rt_status : string;
  rt_failure : option string
}.

Record rresults := RResults {
  r_total : Z;
  r_passed : Z;
  r_failed : Z;
  r_skipped : Z;
  r_tests : list rtest
}.

Definition parse_rcase (tc : element) : option rtest :=
  tm ← float_attr tc "time";
  let fl := find tc "failure" in
  Some (RTest (get tc "name") (get tc "classname") tm
              (if fl then "failed"%string else "passed"%string)
              (fl ≫= text)).

Fixpoint parse_rsuites (acc : rresults) (ss : list element) : option rresults :=
  match ss with
  | [] => Some acc
  | ts :: rest =>
      n ← int_attr ts "tests";
      fa ← int_attr ts "failures";
      sk ← int_attr ts "skipped";
      cases ← mapM parse_rcase (children ts);
      parse_rsuites
        (RResults (r_total acc + n) (r_passed acc) (r_failed acc + fa)
                  (r_skipped acc + sk) (r_tests acc ++ cases))
        rest
  end.

(** The [try] block of [parse_test_results] once the file exists. *)
Definition parse_test_results_doc (doc : option element) : option rresults :=
  root ← doc;
  r ← parse_rsuites (RResults 0 0 0 0 []) (children root);
  Some (RResults (r_total r) (r_total r - r_failed r - r_skipped r)
                 (r_failed r) (r_skipped r) (r_tests r)).

End Parsers.

Arguments GTest {F}. Arguments gt_name {F}. Arguments gt_classname {F}.
Arguments gt_time {F}. Arguments gt_status {F}. Arguments gt_failure {F}.
Arguments gt_error {F}. Arguments gt_skipped {F}.
Arguments GSuite {F}. Arguments gs_name {F}. Arguments gs_tests {F}.
Arguments gs_failures {F}. Arguments gs_errors {F}. Arguments gs_skipped {F}.
Arguments gs_time {F}. Arguments gs_timestamp {F}.
Arguments Summary {F}. Arguments s_total {F}. Arguments s_passed {F}.
Arguments s_failed {F}. Arguments s_skipped {F}. Arguments s_errors {F}.
Arguments s_time {F}. Arguments GResults {F}. Arguments testsuites {F}.
Arguments summary_of {F}.
Arguments RTest {F}. Arguments rt_name {F}. Arguments rt_classname {F}.
Arguments rt_time {F}. Arguments rt_status {F}. Arguments rt_failure {F}.
Arguments RResults {F}. Arguments r_total {F}. Arguments r_passed {F}.
Arguments r_failed {F}. Arguments r_skipped {F}. Arguments r_tests {F}.

(** ** XrayReportGenerator: configuration, key and status mapping *)

(** The parts of the loaded configuration JSON the generator reads:
    [config["integration"]["testCaseMapping"]["automationMapping"]] and
    [config["xray"]["testStatuses"]]; [None] when the chain of keys is
    absent ([load_config] yields [{}] for a missing or undecodable file). *)
Record config := Config {
  cfg_automation_mapping : option (gmap string string);
  cfg_test_statuses : option (gmap string string)
}.

Definition empty_config : config := Config None None.

(** [map_test_to_xray_key] *)
Definition map_test_to_xray_key (cfg : config) (test_name : string) : string :=
  default ("CHATCPP-TC-" +:+ test_name)
    (default ∅ (cfg_automation_mapping cfg) !! test_name).

(** [map_status_to_xray]: [status_mapping.get(status, status.upper())] *)
Definition map_status_to_xray (cfg : config) (status : string) : string :=
  default (PyStr.upper status) (default ∅ (cfg_test_statuses cfg) !! status).

Section GenReport.

Variable F : Type.
(** [datetime] instants, [+ timedelta(seconds=t)], and [f"{t}"] on a float. *)
Variable instant : Type.
Variable tplus : instant -> F -> instant.
Variable float_str : F -> string.

Record xentry := XEntry {
  x_testKey : string;
  x_start : instant;
  x_finish : instant;
  x_comment : string;
  x_status : string
}.

Definition gen_comment (test : gtest F) : string :=
  let c0 := ("Execution time: " +:+ float_str (gt_time test) +:+ "s" +:+ PyStr.nl
             +:+ "Class: " +:+ gt_classname test)%string in
  let c1 :=
    match gt_failure test with
    | Some f =>
        if String.eqb (gt_status test) "failed" then
          (c0 +:+ PyStr.nl +:+ PyStr.nl +:+ "FAILURE:" +:+ PyStr.nl +:+ m_content f
           +:+ (if String.eqb (m_message f) "" then ""
                else PyStr.nl +:+ "Message: " +:+ m_message f))%string
        else c0
    | None => c0
    end in
  match gt_error test with
  | Some e =>
      if String.eqb (gt_status test) "error" then
        (c1 +:+ PyStr.nl +:+ PyStr.nl +:+ "ERROR:" +:+ PyStr.nl +:+ m_content e
         +:+ (if String.eqb (m_message e) "" then ""
              else PyStr.nl +:+ "Message: " +:+ m_message e))%string
      else c1
  | None => c1
  end.

(** The inner loop of [generate_xray_json_report]: one entry per case,
    [test_start_time] advanced by each case's time. *)
Fixpoint gen_entries (cfg : config) (start : instant) (tests : list (gtest F))
    : list xentry * instant :=
  match tests with
  | [] => ([], start)
  | test :: rest =>
      let e := XEntry (map_test_to_xray_key cfg (gt_name test)) start
                 (tplus start (gt_time test)) (gen_comment test)
                 (map_status_to_xray cfg (gt_status test)) in
      let '(es, fin) := gen_entries cfg (tplus start (gt_time test)) rest in
      (e :: es, fin)
  end.

Fixpoint gen_suite_entries (cfg : config) (start : instant) (ss : list (gsuite F))
    : list xentry :=
  match ss with
  | [] => []
  | s :: rest =>
      let '(es, fin) := gen_entries cfg start (gs_tests s) in
      es ++ gen_suite_entries cfg fin rest
  end.

End GenReport.

Arguments XEntry {instant}. Arguments x_testKey {instant}. Arguments x_start {instant}.
Arguments x_finish {instant}. Arguments x_comment {instant}. Arguments x_status {instant}.

(** ** XrayTestRunner._check_memory_leaks *)
Module Leak.

Definition leak_indicators : list string :=
  ["Direct leak"; "Indirect leak"; "Still reachable"; "heap-use-after-free";
   "heap-buffer-overflow"; "stack-buffer-overflow"; "global-buffer-overflow";
   "LeakSanitizer"]%string.

Definition check_memory_leaks (output : string) : bool :=
  existsb (fun indicator =>
             PyStr.contains (PyStr.lower indicator) (PyStr.lower output))
          leak_indicators.

(** The signature set as the specification writes it (lower case). *)
Definition spec_signatures : list string :=
  ["direct leak"; "indirect leak"; "still reachable"; "heap-use-after-free";
   "heap-buffer-overflow"; "stack-buffer-overflow"; "global-buffer-overflow";
   "leaksanitizer"]%string.

(** [sig] occurs in [text] up to letter case: some substring of [text]
    agrees with [sig] once both are folded to lower case. *)
Definition occurs_ci (sig text : string) : Prop :=
  exists pre mid suf,
    text = (pre +:+ mid +:+ suf)%string /\ PyStr.lower mid = PyStr.lower sig.

End Leak.

(** ** XrayTestRunner: the pipeline of run_tests_xray.py *)
Module Runner.

(** How a Python computation stops early: [sys.exit(code)] or an exception
    nobody catches (the interpreter then exits with status 1). *)
Inductive halt := SysExit (code : Z) | Raised.

Inductive res (A : Type) := Ok (a : A) | Halt (h : halt).
Arguments Ok {A}. Arguments Halt {A}.

Record proc_result := Proc {
  returncode : Z;
  stdout : string;
  stderr : string
}.

(** One entry of the runner's Xray report. *)
Record rentry := REntry {
  re_testKey : string;
  re_start : string;
  re_finish : string;
  re_comment : string;
  re_status : string
}.

Record xray_report := XrayReport {
  testExecutionKey : string;
  info_summary : string;
  info_description : string;
  info_testPlanKey : string;
  info_testEnvironments : list string;
  report_tests : list rentry
}.

(** A file holds text, or a report written with [json.dump] (kept as the
    structured value that was dumped). *)
Inductive content := Text (s : string) | Json (r : xray_report).

(** The runner object: the files of the project tree (paths relative to
    the project root) and the two attributes [run_tests] reads. *)
Record runner := Runner {
  fs : gmap string content;
  memory_leaks_detected : bool;
  force_memory_leak_demo : option bool
}.

Definition set_fs (st : runner) (m : gmap string content) : runner :=
  Runner m (memory_leaks_detected st) (force_memory_leak_demo st).

(** State and early exit. *)
Definition M (A : Type) := runner -> res A * runner.

Definition ret {A} (a : A) : M A := fun st => (Ok a, st).
Definition bind {A B} (m : M A) (k : A -> M B) : M B :=
  fun st => match m st with
            | (Ok a, st') => k a st'
            | (Halt h, st') => (Halt h, st')
            end.

Notation "x <- m ;; k" := (bind m (fun x => k))
  (at level 100, m at next level, right associativity).
Notation "m ;;; k" := (bind m (fun _ => k))
  (at level 100, right associativity).

Definition get : M runner := fun st => (Ok st, st).
Definition set_leaks (b : bool) : M unit :=
  fun st => (Ok tt, Runner (fs st) b (force_memory_leak_demo st)).
Definition set_force (b : bool) : M unit :=
  fun st => (Ok tt, Runner (fs st) (memory_leaks_detected st) (Some b)).
Definition raise {A} : M A := fun st => (Halt Raised, st).
Definition sys_exit {A} (code : Z) : M A := fun st => (Halt (SysExit code), st).

(** [Path.exists()] *)
Definition exists_ (p : string) : M bool :=
  fun st => (Ok (bool_decide (is_Some (fs st !! p))), st).

(** [open(p, 'w').write(...)] / [json.dump] into a fresh file *)
Definition write (p : string) (c : content) : M unit :=
  fun st => (Ok tt, set_fs st (<[p := c]> (fs st))).

(** [shutil.copy2(src, dst)]: [FileNotFoundError] if [src] is missing. *)
Definition copy2 (src dst : string) : M unit :=
  fun st => match fs st !! src with
            | Some c => (Ok tt, set_fs st (<[dst := c]> (fs st)))
            | None => (Halt Raised, st)
            end.

(** A computation that stops early only with [sys.exit(1)] or an
    uncaught exception. *)
Definition exits_1 {A} (m : M A) : Prop :=
  forall st h st', m st = (Halt h, st') -> h = Raised \/ h = SysExit 1.

(** A computation that leaves [memory_leaks_detected] as it found it. *)
Definition keeps_flag {A} (m : M A) : Prop :=
  forall st, memory_leaks_detected (snd (m st)) = memory_leaks_detected st.

Definition build_dir : string := "build".
Definition reports_dir : string := "test-management/reports".
Definition test_executable : string := "build/chat_tests".
Definition temp_results_file : string := "build/test_results.xml".
Definition valgrind_xml : string := "build/valgrind_results.xml".
Definition valgrind_log : string := "build/valgrind_log.txt".

Definition gtest_output (results : string) : string :=
  ("--gtest_output=xml:" +:+ results)%string.

Definition valgrind_cmd (exe results : string) : list string :=
  ["valgrind"; "--tool=memcheck"; "--leak-check=full"; "--show-leak-kinds=all";
   "--track-origins=yes"; "--verbose"; "--log-file=valgrind_log.txt";
   "--xml=yes"; "--xml-file=valgrind_results.xml"; exe; gtest_output results]%string.

Definition asan_env : list (string * string) :=
  [("ASAN_OPTIONS", "detect_leaks=1:log_path=asan_log")]%string.

Definition memory_analysis_of (leaks : bool) : string :=
  if leaks then "AddressSanitizer + Valgrind"%string
  else "AddressSanitizer Clean"%string.

Definition test_case_mapping : gmap string string :=
  list_to_map [("CreateMessage", "CHATCPP-TC-001"); ("ToString", "CHATCPP-TC-002");
               ("FromString", "CHATCPP-TC-003"); ("InvalidString", "CHATCPP-TC-004");
               ("TimestampUpdate", "CHATCPP-TC-005")]%string.

(** [f"{x}"] for [x] a [str] or [None] *)
Definition py_str_opt (x : option string) : string := default "None" x.

(** The status translation of the runner's [generate_xray_report]. *)
Definition runner_status (status : string) : string :=
  if String.eqb status "passed" then "PASSED"%string else "FAILED"%string.

(** The runner's [generate_xray_report] description. *)
Definition report_description (memory_analysis : string) : string :=
  ("Automated test execution via CI pipeline"
   +:+ (if String.eqb memory_analysis "" then ""
        else " | Memory Analysis: " +:+ memory_analysis))%string.

(** The fixed document written to [valgrind_results.xml] when Valgrind is
    not installed (the triple-quoted [simulated_log] of the source). *)
Definition simulated_xml : string :=
  ("<?xml version=" +:+ PyStr.dq +:+ "1.0" +:+ PyStr.dq +:+ "?>
<valgrindoutput>
  <protocolversion>4</protocolversion>
  <protocoltool>memcheck</protocoltool>
  <preamble>
    <line>Memcheck, a memory error detector</line>
    <line>Copyright (C) 2002-2022, and GNU GPL'd, by Julian Seward et al.</line>
    <line>Using Valgrind-3.22.0 and LibVEX; rerun with -h for copyright info</line>
    <line>Command: ./chat_tests --gtest_output=xml:test_results.xml</line>
  </preamble>
  <pid>12345</pid>
  <ppid>6789</ppid>
  <tool>memcheck</tool>
  <args>
    <vargv>
      <arg>valgrind</arg>
      <arg>--tool=memcheck</arg>
      <arg>--leak-check=full</arg>
      <arg>--xml=yes</arg>
      <arg>--xml-file=valgrind_results.xml</arg>
      <arg>./chat_tests</arg>
      <arg>--gtest_output=xml:test_results.xml</arg>
    </vargv>
  </args>
  <status>
    <state>RUNNING</state>
    <time>00:00:00:000</time>
  </status>
  <error>
    <unique>0x1</unique>
    <tid>1</tid>
    <kind>Leak_DefinitelyLost</kind>
    <what>50 bytes in 1 blocks are definitely lost in loss record 1 of 1</what>
    <stack>
      <frame>
        <ip>0x4C2A1A3</ip>
        <obj>/usr/lib/valgrind/vgpreload_memcheck-amd64-linux.so</obj>
        <fn>operator new[](unsigned long)</fn>
      </frame>
      <frame>
        <ip>0x401234</ip>
        <obj>/home/cehez/Codes/ChatCpp/build/chat_tests</obj>
        <fn>global constructors keyed to message_test.cpp</fn>
      </frame>
    </stack>
    <auxwhat>50 bytes in 1 blocks are definitely lost</auxwhat>
  </error>
  <status>
    <state>FINISHED</state>
    <time>00:00:01:234</time>
  </status>
  <errorcounts>
    <pair>
      <count>1</count>
      <unique>0x1</unique>
    </pair>
  </errorcounts>
</valgrindoutput>")%string.

(** The lines written to [valgrind_log.txt] in that case. *)
Definition simulated_log : string :=
  "==12345== Memcheck, a memory error detector
==12345== Copyright (C) 2002-2022, and GNU GPL'd, by Julian Seward et al.
==12345== Using Valgrind-3.22.0 and LibVEX; rerun with -h for copyright info
==12345== Command: ./chat_tests --gtest_output=xml:test_results.xml
==12345== 
==12345== 50 bytes in 1 blocks are definitely lost in loss record 1 of 1
==12345==    at 0x4C2A1A3: operator new[](unsigned long) (vg_replace_malloc.c:431)
==12345==    by 0x401234: global constructors keyed to message_test.cpp (in /home/cehez/Codes/ChatCpp/build/chat_tests)
==12345== 
==12345== LEAK SUMMARY:
==12345==    definitely lost: 50 bytes in 1 blocks
==12345==    indirectly lost: 0 bytes in 0 blocks
==12345==    possibly lost: 0 bytes in 0 blocks
==12345==    still reachable: 0 bytes in 0 blocks
==12345==    suppressed: 0 bytes in 0 blocks
"%string.

(** *** Well-formedness of an attribute-free XML document
    One root element, properly nested tags, an optional [<?...?>]
    declaration before the root, only whitespace outside the root, no
    [&] in character data. *)
Inductive tag_ev := TDecl | TOpen (n : list ascii) | TClose (n : list ascii)
                  | TEmpty (n : list ascii).

Definition name_char (c : ascii) : bool :=
  let n := nat_of_ascii c in
  ((97 <=? n)%nat && (n <=? 122)%nat) || ((65 <=? n)%nat && (n <=? 90)%nat)
  || ((48 <=? n)%nat && (n <=? 57)%nat)
  || Ascii.eqb c "_"%char || Ascii.eqb c "-"%char || Ascii.eqb c "."%char
  || Ascii.eqb c ":"%char.

Definition valid_name (n : list ascii) : bool :=
  match n with
  | c :: _ => negb (PyStr.isdigit c) && negb (Ascii.eqb c "-"%char)
              && forallb name_char n
  | [] => false
  end.

Definition classify (body : list ascii) : option tag_ev :=
  match body with
  | "?"%char :: r =>
      match rev r with "?"%char :: _ => Some TDecl | _ => None end
  | "/"%char :: n => if valid_name n then Some (TClose n) else None
  | _ =>
      match rev body with
      | "/"%char :: rn => if valid_name (rev rn) then Some (TEmpty (rev rn)) else None
      | _ => if valid_name body then Some (TOpen body) else None
      end
  end.

Inductive phase := Prolog | InRoot (stack : list (list ascii)) | Epilog.

Definition list_ascii_eqb (a b : list ascii) : bool :=
  bool_decide (a = b).

Definition on_tag (p : phase) (ev : tag_ev) : option phase :=
  match p, ev with
  | Prolog, TDecl => Some Prolog
  | Prolog, TOpen n => Some (InRoot [n])
  | Prolog, TEmpty _ => Some Epilog
  | InRoot st, TOpen n => Some (InRoot (n :: st))
  | InRoot st, TEmpty _ => Some (InRoot st)
  | InRoot (top :: st), TClose n =>
      if list_ascii_eqb top n then
        match st with [] => Some Epilog | _ => Some (InRoot st) end
      else None
  | _, _ => None
  end.

Definition on_char (p : phase) (c : ascii) : bool :=
  match p with
  | InRoot _ => negb (Ascii.eqb c "&"%char)
  | _ => PyStr.isspace c
  end.

(** [tag = Some body_reversed] while inside [<...>]. *)
Fixpoint wf_go (l : list ascii) (p : phase) (tag : option (list ascii)) : bool :=
  match l, tag with
  | [], None => match p with Epilog => true | _ => false end
  | [], Some _ => false
  | c :: t, None =>
      if Ascii.eqb c "<"%char then wf_go t p (Some [])
      else on_char p c && wf_go t p None
  | c :: t, Some body =>
      if Ascii.eqb c ">"%char then
        match classify (rev body) ≫= on_tag p with
        | Some p' => wf_go t p' None
        | None => false
        end
      else if Ascii.eqb c "<"%char then false
      else wf_go t p (Some (c :: body))
  end.

Definition xml_well_formed (s : string) : bool :=
  wf_go (list_ascii_of_string s) Prolog None.

(** The environment the runner script meets: Python floats ([float(s)],
    [float(0)], [f"{x}"]), the clock ([datetime.now().strftime(fmt)],
    [datetime.now().isoformat()],
    [(datetime.now() + timedelta(seconds=t)).isoformat()] where the sum
    exists, and whether it does: [w_finish_ok t] is false when
    [datetime.now() + timedelta(seconds=t)] raises, an [OverflowError] for
    a time that takes the date out of the years 1 to 9999 or is infinite,
    a [ValueError] for NaN),
    [subprocess.run(argv, env=...)] (the child's result and its effect on
    the files; [None] when the program cannot be started, an [OSError]),
    [ET.parse] on the text of a file ([None] when it is not well-formed
    XML), the text [json.dump] writes for a report,
    [os.environ.get('ENABLE_MEMORY_LEAK_DEMO')] and
    [str(os.cpu_count() or 4)]. *)
Record world (F : Type) := World {
  w_py_float : string -> option F;
  w_f0 : F;
  w_float_str : F -> string;
  w_strftime_now : string -> string;
  w_now_isoformat : string;
  w_isoformat_after : F -> string;
  w_finish_ok : F -> bool;
  w_exec : list string -> list (string * string) -> gmap string content ->
           option (proc_result * gmap string content);
  w_xml_decode : string -> option element;
  w_json_dump : xray_report -> string;
  w_demo_env : option string;
  w_make_jobs : string
}.

Arguments World {F}.
Arguments w_py_float {F}. Arguments w_f0 {F}. Arguments w_float_str {F}.
Arguments w_strftime_now {F}. Arguments w_now_isoformat {F}.
Arguments w_isoformat_after {F}. Arguments w_finish_ok {F}. Arguments w_exec {F}. Arguments w_xml_decode {F}.
Arguments w_json_dump {F}. Arguments w_demo_env {F}. Arguments w_make_jobs {F}.

Section Pipeline.

Variable F : Type.
Variable w : world F.

Definition file_text (c : content) : string :=
  match c with Text s => s | Json r => w_json_dump w r end.

Definition run (argv : list string) (env : list (string * string)) : M proc_result :=
  fun st => match w_exec w argv env (fs st) with
            | Some (r, m) => (Ok r, set_fs st m)
            | None => (Halt Raised, st)
            end.

Definition stamped (prefix ext : string) : string :=
  (reports_dir +:+ "/" +:+ prefix +:+ w_strftime_now w "%Y%m%d_%H%M%S" +:+ ext)%string.

(** [build_project] *)
Definition build_project : M bool :=
  let demo := String.eqb (PyStr.lower (default "" (w_demo_env w))) "true" in
  let cmake_args :=
    List.app ["cmake"; ".."; "-DCMAKE_CXX_COMPILER=g++"; "-DCMAKE_C_COMPILER=gcc"]%string
      (if demo then ["-DENABLE_MEMORY_LEAK_TEST=ON"%string] else []) in
  set_force demo;;;
  r <- run cmake_args [];;
  if negb (returncode r =? 0)%Z then ret false else
  r2 <- run ["make"; "-j"; (w_make_jobs w)]%string [];;
  ret (returncode r2 =? 0)%Z.

(** [_run_tests_with_valgrind].  [import shutil] sits inside the first
    [if], so [shutil] is a local of the function: the later [copy2] calls
    raise [UnboundLocalError] when that branch was not taken. *)
Definition run_tests_with_valgrind (exe results : string) : M (option string) :=
  w <- run ["which"; "valgrind"]%string [];;
  (if (returncode w =? 0)%Z then
     _ <- run (valgrind_cmd exe results) [];; ret tt
   else
     _ <- run [exe; gtest_output results] [];;
     write valgrind_xml (Text simulated_xml);;;
     write valgrind_log (Text simulated_log));;;
  x <- exists_ valgrind_xml;;
  shutil_bound <-
    (if x then copy2 valgrind_xml (stamped "valgrind_results_" ".xml");;; ret true
     else ret false);;
  l <- exists_ valgrind_log;;
  (if l then (if shutil_bound then copy2 valgrind_log (stamped "valgrind_log_" ".txt")
              else raise)
   else ret tt);;;
  rf <- exists_ results;;
  if rf then
    (if shutil_bound then
       copy2 results (stamped "test_results_valgrind_" ".xml");;;
       ret (Some (stamped "test_results_valgrind_" ".xml"))
     else raise)
  else ret None.

(** [run_tests] *)
Definition run_tests : M (option string) :=
  ex <- exists_ test_executable;;
  if negb ex then ret None else
  r <- run [test_executable; gtest_output temp_results_file] asan_env;;
  set_leaks (Leak.check_memory_leaks (stderr r +:+ stdout r))%string;;;
  st <- get;;
  (if default false (force_memory_leak_demo st) then set_leaks true else ret tt);;;
  st' <- get;;
  if memory_leaks_detected st' then
    run_tests_with_valgrind test_executable temp_results_file
  else
    ok <- exists_ temp_results_file;;
    if (returncode r =? 0)%Z && ok then
      copy2 temp_results_file (stamped "test_results_" ".xml");;;
      ret (Some (stamped "test_results_" ".xml"))
    else ret None.

(** [parse_test_results] *)
Definition parse_test_results (results_file : option string) : M (option (rresults F)) :=
  fun st =>
    match results_file with
    | None => (Ok None, st)
    | Some p =>
        match fs st !! p with
        | None => (Ok None, st)
        | Some c => (Ok (parse_test_results_doc F (w_py_float w) (w_f0 w)
                           (w_xml_decode w (file_text c))), st)
        end
    end.

(** [generate_xray_report] of the runner *)
Definition runner_entry (test : rtest F) : rentry :=
  let key :=
    match rt_name test with
    | Some n => default ("CHATCPP-TC-" +:+ n)%string (test_case_mapping !! n)
    | None => "CHATCPP-TC-None"%string
    end in
  let comment := ("Execution time: " +:+ w_float_str w (rt_time test) +:+ "s")%string in
  let comment :=
    match rt_failure test with
    | Some f => if String.eqb f "" then comment
                else (comment +:+ PyStr.nl +:+ "Failure: " +:+ f)%string
    | None => comment
    end in
  REntry key (w_now_isoformat w) (w_isoformat_after w (rt_time test)) comment
         (runner_status (rt_status test)).

(** The report the runner's [generate_xray_report] returns when it
    returns; [generate_xray_report_call] below is the call, which raises
    when one entry's [finish] cannot be computed. *)
Definition generate_xray_report (test_results : rresults F)
    (test_plan_key memory_analysis : string) : xray_report :=
  XrayReport ("CHATCPP-TE-" +:+ w_strftime_now w "%Y%m%d%H%M%S")%string
    ("Automated Test Execution - " +:+ w_strftime_now w "%Y-%m-%d %H:%M:%S")%string
    (report_description memory_analysis) test_plan_key ["CI Pipeline"%string]
    (map runner_entry (r_tests test_results)).

(** The call of the runner's [generate_xray_report]: building an
    entry's ["finish"] evaluates
    [datetime.datetime.now() + datetime.timedelta(seconds=test["time"])],
    which raises for a time [w_finish_ok] rejects; otherwise the call
    returns the report [generate_xray_report] builds. *)
Definition generate_xray_report_call (test_results : rresults F)
    (test_plan_key memory_analysis : string) : M xray_report :=
  if forallb (fun t => w_finish_ok w (rt_time t)) (r_tests test_results)
  then ret (generate_xray_report test_results test_plan_key memory_analysis)
  else raise.

Definition report_path : string := stamped "xray_report_" ".json".

(** [save_xray_report] *)
Definition save_xray_report (report : xray_report) : M string :=
  write report_path (Json report);;; ret report_path.

(** [run]: build, run, parse, report; [True]/[False] is [failed == 0]. *)
Definition run_main : M bool :=
  b <- build_project;;
  if negb b then sys_exit 1 else
  results_file <- run_tests;;
  match results_file with
  | None => sys_exit 1
  | Some _ =>
      tr <- parse_test_results results_file;;
      match tr with
      | None => sys_exit 1
      | Some test_results =>
          st <- get;;
          rep <- generate_xray_report_call test_results "CHATCPP-TP-001"
                   (memory_analysis_of (memory_leaks_detected st));;
          _ <- save_xray_report rep;;
          ret (r_failed test_results =? 0)%Z
      end
  end.

(** [XrayTestRunner(project_root)] on the files [fs0]. *)
Definition initial (fs0 : gmap string content) : runner := Runner fs0 false None.

(** The script: [sys.exit(0 if success else 1)], or the status of an
    earlier [sys.exit], or 1 for an uncaught exception. *)
Definition script (fs0 : gmap string content) : Z * runner :=
  match run_main (initial fs0) with
  | (Ok b, st) => (if b then 0%Z else 1%Z, st)
  | (Halt (SysExit c), st) => (c, st)
  | (Halt Raised, st) => (1%Z, st)
  end.

End Pipeline.

End Runner.

(** ** A concrete instance of the float and clock parameters
    [float(s)] on plain decimal literals (sign, digits, an optional
    fraction, surrounding whitespace), valued exactly in [Q]; exponents,
    [inf] and [nan] are left out.  Used to run the model on sample inputs. *)
Module DecFloat.

Definition F : Type := Q.

Fixpoint take_digits (l : list ascii) (acc : Z) (k : nat) : Z * nat * list ascii :=
  match l with
  | c :: t => if PyStr.isdigit c then take_digits t (acc * 10 + PyStr.digit_val c)%Z (S k)
              else (acc, k, l)
  | [] => (acc, k, [])
  end.

Definition parse_unsigned (l : list ascii) : option Q :=
  let '(ip, ni, r) := take_digits l 0%Z 0 in
  match r with
  | [] => if (ni =? 0)%nat then None else Some (inject_Z ip)
  | "."%char :: r' =>
      let '(fp, nf, r'') := take_digits r' 0%Z 0 in
      match r'' with
      | [] => if (ni + nf =? 0)%nat then None
              else Some (Qmake (ip * 10 ^ Z.of_nat nf + fp)%Z
                               (Z.to_pos (10 ^ Z.of_nat nf)))
      | _ => None
      end
  | _ => None
  end.

Definition py_float (s : string) : option Q :=
  match PyStr.strip_l (list_ascii_of_string s) with
  | "+"%char :: r => parse_unsigned r
  | "-"%char :: r => Qopp <$> parse_unsigned r
  | l => parse_unsigned l
  end.

Definition f0 : Q := inject_Z 0.
Definition fadd : Q -> Q -> Q := Qplus.

Fixpoint n_digits (fuel : nat) (n : N) (acc : string) : string :=
  match fuel with
  | O => acc
  | S f =>
      let acc' := String (ascii_of_N (48 + N.modulo n 10)) acc in
      if (n <? 10)%N then acc' else n_digits f (N.div n 10) acc'
  end.

Definition z_str (z : Z) : string :=
  ((if (z <? 0)%Z then "-" else "") +:+ n_digits 64 (Z.to_N (Z.abs z)) "")%string.

(** Fraction digits of [r / d] (at most [fuel]), stopping when exact. *)
Fixpoint frac_digits (fuel : nat) (r d : Z) : string :=
  match fuel with
  | O => ""
  | S f =>
      if (r =? 0)%Z then ""
      else String (ascii_of_N (48 + Z.to_N (r * 10 / d))) (frac_digits f (r * 10 mod d) d)
  end.

(** [f"{x}"], for values with a short decimal expansion. *)
Definition float_str (q : Q) : string :=
  let n := Qnum q in let d := Zpos (Qden q) in
  let fr := frac_digits 17 (Z.abs n mod d) d in
  ((if (n <? 0)%Z then "-" else "") +:+ z_str (Z.abs n / d) +:+ "."
   +:+ (if String.eqb fr "" then "0" else fr))%string.

End DecFloat.

(** ** Sample documents *)
Module Docs.

Definition el (t : string) (attrs : list (string * string)) (cs : list element) : element :=
  Element t (list_to_map attrs) None cs.

Definition root (suites : list element) : element := el "testsuites" [] suites.

(** One suite whose [tests] count is not a number. *)
Definition bad_count : element :=
  root [el "testsuite" [("name", "MessageTest"); ("tests", "abc")]
          [el "testcase" [("name", "CreateMessage")] []]].

(** One suite of one case with an [error] and a [skipped] marker. *)
Definition error_and_skipped_case : element :=
  el "testcase" [("name", "ToString"); ("classname", "MessageTest")]
     [el "error" [("message", "boom")] []; el "skipped" [] []].

Definition failure_and_skipped_case : element :=
  el "testcase" [("name", "CreateMessage"); ("classname", "MessageTest")]
     [el "failure" [("message", "assertion X")] []; el "skipped" [] []].

Definition errored_suite : element :=
  root [el "testsuite" [("name", "MessageTest"); ("tests", "1"); ("failures", "0");
                        ("errors", "1"); ("skipped", "0")]
          [error_and_skipped_case]].

(** A suite whose count attributes say one failure while its single case
    carries no marker. *)
Definition disagreeing : element :=
  root [el "testsuite" [("name", "MessageTest"); ("tests", "1"); ("failures", "1")]
          [el "testcase" [("name", "CreateMessage")] []]].

(** A case with an [error] marker only. *)
Definition error_case : element :=
  el "testcase" [("name", "FromString"); ("classname", "MessageTest")]
     [el "error" [("message", "exception thrown")] []].

(** One suite of one case that fails. *)
Definition one_failure : element :=
  root [el "testsuite" [("name", "MessageTest"); ("tests", "1"); ("failures", "1")]
          [el "testcase" [("name", "CreateMessage"); ("classname", "MessageTest")]
              [el "failure" [("message", "Expected equality")] []]]].

(** One suite, no failure; its single case reports a time of 10^12 s
    (about 31700 years). *)
Definition huge_time : element :=
  root [el "testsuite" [("name", "MessageTest"); ("tests", "1"); ("failures", "0")]
          [el "testcase" [("name", "CreateMessage"); ("classname", "MessageTest");
                          ("time", "1000000000000")] []]].

End Docs.

(** ** Sample environments of the runner
    A project tree in which [cmake] and [make] succeed and [make] produces
    the test executable; the behaviour of the test executable, of
    [which valgrind] and of Valgrind is given by a [scenario]. *)
Module SampleWorld.
Import Runner.

Record scenario := Scenario {
  sc_asan_rc : Z;            (** exit code of the AddressSanitizer run *)
  sc_asan_stderr : string;   (** what that run prints on stderr *)
  sc_asan_writes : bool;     (** whether it writes the result document *)
  sc_valgrind : bool;        (** whether [which valgrind] succeeds *)
  sc_rerun_rc : Z;           (** exit code of the rerun (under Valgrind or not) *)
  sc_rerun_writes : bool;    (** whether the rerun writes the result document *)
  sc_doc : element           (** the result document written *)
}.

Definition attr_str (kv : string * string) : string :=
  (" " +:+ kv.1 +:+ "=" +:+ PyStr.dq +:+ kv.2 +:+ PyStr.dq)%string.

(** The XML text of an element (attribute order of the map). *)
Fixpoint render (e : element) : string :=
  ("<" +:+ tag e +:+ String.concat "" (map attr_str (map_to_list (attrib e))) +:+ ">"
   +:+ default "" (text e) +:+ String.concat "" (map render (children e))
   +:+ "</" +:+ tag e +:+ ">")%string.

Definition ok_proc (rc : Z) (err : string) : proc_result := Proc rc "" err.

Definition with_doc (sc : scenario) (b : bool) (m : gmap string content)
    : gmap string content :=
  if b then <[temp_results_file := Text (render (sc_doc sc))]> m else m.

Definition exec (sc : scenario) (argv : list string) (env : list (string * string))
    (m : gmap string content) : option (proc_result * gmap string content) :=
  match argv with
  | cmd :: args =>
      if String.eqb cmd "cmake" then Some (ok_proc 0 "", m)
      else if String.eqb cmd "make" then
        Some (ok_proc 0 "", <[test_executable := Text "ELF"]> m)
      else if String.eqb cmd "which" then
        Some (ok_proc (if sc_valgrind sc then 0 else 1) "", m)
      else if String.eqb cmd "valgrind" && sc_valgrind sc then
        Some (ok_proc (sc_rerun_rc sc) "",
              <[valgrind_xml := Text simulated_xml]>
                (<[valgrind_log := Text simulated_log]> (with_doc sc (sc_rerun_writes sc) m)))
      else if String.eqb cmd test_executable && bool_decide (is_Some (m !! test_executable))
      then
        if bool_decide (env = asan_env) then
          Some (ok_proc (sc_asan_rc sc) (sc_asan_stderr sc), with_doc sc (sc_asan_writes sc) m)
        else Some (ok_proc (sc_rerun_rc sc) "", with_doc sc (sc_rerun_writes sc) m)
      else None
  | [] => None
  end.

Definition strftime (fmt : string) : string :=
  if String.eqb fmt "%Y%m%d_%H%M%S" then "20261018_120000"%string
  else if String.eqb fmt "%Y%m%d%H%M%S" then "20261018120000"%string
  else "2026-10-18 12:00:00"%string.

(** [timedelta(seconds=t)] rounds [t] to microseconds, half to even. *)
Definition round_us (q : Q) : Z :=
  let u := (q * inject_Z (10 ^ 6))%Q in
  let fl := Qfloor u in
  let fr := (u - inject_Z fl)%Q in
  if Qle_bool (1 # 2) fr then
    (if Qeq_bool fr (1 # 2) then (if Z.even fl then fl else fl + 1) else fl + 1)%Z
  else fl.

(** [datetime(2026, 10, 18, 12) + timedelta(seconds=t)] exists exactly
    when the result lies between [datetime.min] and [datetime.max]: from
    63927921600 s before to 251609975999.999999 s after that instant. *)
Definition finish_ok (q : Q) : bool :=
  (-63927921600000000 <=? round_us q)%Z && (round_us q <=? 251609975999999999)%Z.

(** The sample documents carry no [time], so every test takes 0 s. *)
Definition world_of (sc : scenario) : world DecFloat.F :=
  World DecFloat.py_float DecFloat.f0 DecFloat.float_str strftime
    "2026-10-18T12:00:00" (fun _ => "2026-10-18T12:00:00"%string) finish_ok (exec sc)
    (fun s => if String.eqb s (render (sc_doc sc)) then Some (sc_doc sc) else None)
    (fun _ => "{}"%string) None "4".

(** A failing test, no leak: the executable exits 1 and writes its result. *)
Definition failing_run : scenario :=
  Scenario 1 "" true false 1 true Docs.one_failure.

(** A leak report from AddressSanitizer, Valgrind not installed. *)
Definition leak_stderr : string :=
  "ERROR: LeakSanitizer: detected memory leaks
Direct leak of 50 byte(s) in 1 object(s) allocated from:"%string.

Definition leak_simulated : scenario :=
  Scenario 1 leak_stderr true false 1 true Docs.one_failure.

(** The same with Valgrind installed. *)
Definition leak_real : scenario :=
  Scenario 1 leak_stderr true true 1 true Docs.one_failure.

(** A crash before any result is written, Valgrind not installed. *)
Definition crash_simulated : scenario :=
  Scenario 1 "ERROR: AddressSanitizer: heap-use-after-free on address 0x602000000010"
    false false 1 false Docs.one_failure.

(** A clean run whose single case errored. *)
Definition errored_run : scenario :=
  Scenario 0 "" true false 0 true Docs.errored_suite.

Definition empty_fs : gmap string content := ∅.

(** The tree after a successful [build_project] from an empty tree. *)
Definition built_fs : gmap string content := <[test_executable := Text "ELF"]> ∅.
Definition st_built : runner := Runner built_fs false (Some false).

(** The description of the report the script saved, if any. *)
Definition saved_description (sc : scenario) : option string :=
  match fs (snd (script _ (world_of sc) empty_fs)) !! report_path _ (world_of sc) with
  | Some (Json r) => Some (info_description r)
  | _ => None
  end.

(** The tree after the AddressSanitizer run of [leak_simulated] (and after
    its rerun, which writes the same document). *)
Definition leak_fs : gmap string content := with_doc leak_simulated true built_fs.

(** A world like [world_of sc] with its own process oracle and its own
    [ENABLE_MEMORY_LEAK_DEMO] value. *)
Definition world_with (sc : scenario)
    (ex : list string -> list (string * string) -> gmap string content ->
          option (proc_result * gmap string content))
    (demo : option string) : world DecFloat.F :=
  World DecFloat.py_float DecFloat.f0 DecFloat.float_str strftime
    "2026-10-18T12:00:00" (fun _ => "2026-10-18T12:00:00"%string) finish_ok ex
    (fun s => if String.eqb s (render (sc_doc sc)) then Some (sc_doc sc) else None)
    (fun _ => "{}"%string) demo "4".

(** A clean passing run. *)
Definition passing_run : scenario :=
  Scenario 0 "" true false 0 true Docs.errored_suite.

(** A Valgrind that writes its log and the result document but no XML
    file (e.g. when it cannot open the XML output). *)
Definition exec_no_xml (sc : scenario) (argv : list string) (env : list (string * string))
    (m : gmap string content) : option (proc_result * gmap string content) :=
  match argv with
  | cmd :: _ =>
      if String.eqb cmd "valgrind" then
        Some (ok_proc (sc_rerun_rc sc) "",
              <[valgrind_log := Text simulated_log]> (with_doc sc (sc_rerun_writes sc) m))
      else exec sc argv env m
  | [] => None
  end.

(** A leak reported by AddressSanitizer, Valgrind not installed, and a
    result document with a case time of 10^12 s. *)
Definition leak_huge_time : scenario :=
  Scenario 1 leak_stderr true false 1 true Docs.huge_time.

Definition huge_fs : gmap string content := with_doc leak_huge_time true built_fs.

(** A clean passing run whose document has a case time of 10^12 s. *)
Definition clean_huge_time : scenario :=
  Scenario 0 "" true false 0 true Docs.huge_time.

(** Valgrind installed, a leak reported by AddressSanitizer. *)
Definition leak_valgrind : scenario :=
  Scenario 1 leak_stderr true true 1 true Docs.one_failure.

End SampleWorld.

(** ** Views of a parsed document used in the statements below *)
Module Views.

(** The children of every suite, in document order: what
    [for testsuite in root: for testcase in testsuite] visits. *)
Definition suite_cases (root : element) : list element :=
  concat (map children (children root)).

(** The sum over the suites of [int(testsuite.get(k, 0))], an unreadable
    value counting as 0. *)
Definition attr_total (k : string) (ss : list element) : Z :=
  fold_right (fun ts acc => default 0%Z (int_attr ts k) + acc)%Z 0%Z ss.

(** The key the runner's report gives a case named [name]. *)
Definition runner_key (name : option string) : string :=
  match name with
  | Some n => default ("CHATCPP-TC-" +:+ n)%string (Runner.test_case_mapping !! n)
  | None => "CHATCPP-TC-None"%string
  end.

(** The lines [generate_xray_json_report] appends for a failure or an
    error marker ([hdr] is ["FAILURE:"] or ["ERROR:"]). *)
Definition marker_details (hdr : string) (mk : marker) : string :=
  (PyStr.nl +:+ PyStr.nl +:+ hdr +:+ PyStr.nl +:+ m_content mk
   +:+ (if String.eqb (m_message mk) "" then ""
        else PyStr.nl +:+ "Message: " +:+ m_message mk))%string.

End Views.

(** ** A further sample document *)
Module ExtraDocs.
Import Docs.

(** Two suites; the first holds a [properties] child besides its cases. *)
Definition mixed : element :=
  root [el "testsuite" [("name", "MessageTest"); ("tests", "2"); ("failures", "1")]
          [el "properties" [] [];
           el "testcase" [("name", "CreateMessage")] [el "failure" [] []];
           el "testcase" [("name", "Broadcast")] []];
        el "testsuite" [("name", "ClientTest"); ("tests", "1"); ("skipped", "1")]
          [el "testcase" [("name", "ToString")] [el "skipped" [] []]]].

End ExtraDocs.

(** * Properties *)

(** ** Sample evaluations *)

Example py_int_spaces : PyStr.py_int " -1_000 " = Some (-1000)%Z.
Proof. reflexivity. Qed.
Example py_int_float : PyStr.py_int "1.5" = None.
Proof. reflexivity. Qed.
Example leak_none : Leak.check_memory_leaks "[  PASSED  ] 5 tests." = false.
Proof. reflexivity. Qed.
Example unbalanced_rejected : Runner.xml_well_formed "<a><b></a></b>" = false.
Proof. vm_compute. reflexivity. Qed.
Example py_int_plain : PyStr.py_int "12" = Some 12%Z.
Proof. reflexivity. Qed.
Example py_int_bad : PyStr.py_int "abc" = None.
Proof. reflexivity. Qed.
Example leak_direct :
  Leak.check_memory_leaks "==1==ERROR: LeakSanitizer: detected memory leaks" = true.
Proof. reflexivity. Qed.
Example simulated_xml_checked : Runner.xml_well_formed Runner.simulated_xml = true.
Proof. vm_compute. reflexivity. Qed.

(** ** String lemmas *)
Module StrFacts.
Import PyStr.
Local Open Scope string_scope.

Lemma lower_app (a b : string) : lower (a +:+ b) = lower a +:+ lower b.
Proof. induction a as [|c a IH]; simpl; [done | by rewrite IH]. Qed.

Lemma startswith_spec (s p : string) :
  startswith s p = true <-> exists suf, s = p +:+ suf.
Proof.
  revert s. induction p as [|c p IH]; intros s; simpl.
  - split; [intros _; by exists s | by intros].
  - destruct s as [|d s]; simpl.
    + split; [done | intros [suf H]; discriminate].
    + rewrite andb_true_iff, Ascii.eqb_eq, IH. split.
      * intros [-> [suf ->]]. by exists suf.
      * intros [suf H]. injection H as -> ->. eauto.
Qed.

Lemma contains_spec (n h : string) :
  contains n h = true <-> exists pre suf, h = pre +:+ n +:+ suf.
Proof.
  induction h as [|c h IH]; simpl; rewrite orb_true_iff, startswith_spec.
  - split.
    + intros [[suf H] | ?]; [by exists "", suf | discriminate].
    + intros [pre [suf H]]. left. exists suf.
      destruct pre; simpl in *; [done | discriminate].
  - rewrite IH. split.
    + intros [[suf H] | [pre [suf H]]].
      * by exists "", suf.
      * exists (String c pre), suf. by rewrite H.
    + intros [pre [suf H]]. destruct pre as [|d pre]; simpl in H.
      * left. by exists suf.
      * injection H as -> ->. right. eauto.
Qed.

Lemma lower_split (t A B : string) :
  lower t = A +:+ B ->
  exists a b, t = a +:+ b /\ lower a = A /\ lower b = B.
Proof.
  revert t. induction A as [|c A IH]; intros t H; simpl in *.
  - by exists "", t.
  - destruct t as [|d t]; simpl in H; [discriminate|].
    injection H as Hc Ht. destruct (IH t Ht) as (a & b & -> & Ha & Hb).
    exists (String d a), b. simpl. by rewrite Hc, Ha.
Qed.

End StrFacts.

Module LeakFacts.
Import PyStr Leak StrFacts.
Local Open Scope string_scope.

Lemma occurs_ci_contains (sig text : string) :
  occurs_ci sig text <-> contains (lower sig) (lower text) = true.
Proof.
  rewrite contains_spec. split.
  - intros (pre & mid & suf & -> & Hm).
    exists (lower pre), (lower suf). by rewrite !lower_app, Hm.
  - intros (P & S & H).
    destruct (lower_split _ _ _ H) as (pre & r & -> & _ & Hr).
    destruct (lower_split _ _ _ Hr) as (mid & suf & -> & Hm & _).
    by exists pre, mid, suf.
Qed.

Lemma occurs_ci_lower (sig sig' text : string) :
  lower sig = lower sig' -> occurs_ci sig text <-> occurs_ci sig' text.
Proof. intros H. rewrite !occurs_ci_contains. by rewrite H. Qed.

Lemma indicators_lower :
  map lower leak_indicators = map lower spec_signatures.
Proof. vm_compute. reflexivity. Qed.

Lemma existsb_occurs (inds sigs : list string) (text : string) :
  map lower inds = map lower sigs ->
  existsb (fun i => contains (lower i) (lower text)) inds = true <->
  Exists (fun s => occurs_ci s text) sigs.
Proof.
  revert sigs. induction inds as [|i inds IH]; intros [|s sigs] H;
    simpl in H; try discriminate.
  - simpl. split; [done | intros Hx; inversion Hx].
  - injection H as Hi Hr. simpl. rewrite orb_true_iff, Exists_cons, IH by done.
    rewrite <- occurs_ci_contains. by rewrite (occurs_ci_lower i s).
Qed.

(** C9: the leak scanner ([_check_memory_leaks]) returns [True] exactly
    when one of the eight signatures "direct leak", "indirect leak",
    "still reachable", "heap-use-after-free", "heap-buffer-overflow",
    "stack-buffer-overflow", "global-buffer-overflow", "leaksanitizer"
    occurs in the text as a case-insensitive substring; it is a function
    of its argument alone. *)
Theorem check_memory_leaks_iff (output : string) :
  check_memory_leaks output = true <-> Exists (fun s => occurs_ci s output) spec_signatures.
Proof. unfold check_memory_leaks. apply existsb_occurs, indicators_lower. Qed.

End LeakFacts.

(** ** The parsers *)
Module ParserFacts.

Section Generic.
Variable F : Type.
Variable py_float : string -> option F.
Variable f0 : F.
Variable fadd : F -> F -> F.

Abbreviation gparse := (parse_junit_xml F py_float f0 fadd).
Abbreviation rparse := (parse_test_results_doc F py_float f0).

(** Which numeric attributes each parser reads. *)
Definition case_ok (tc : element) : Prop := is_Some (float_attr F py_float f0 tc "time").

Definition rsuite_ok (ts : element) : Prop :=
  is_Some (int_attr ts "tests") /\ is_Some (int_attr ts "failures") /\
  is_Some (int_attr ts "skipped") /\ Forall case_ok (children ts).

Definition gsuite_ok (ts : element) : Prop :=
  is_Some (int_attr ts "tests") /\ is_Some (int_attr ts "failures") /\
  is_Some (int_attr ts "errors") /\ is_Some (int_attr ts "skipped") /\
  is_Some (float_attr F py_float f0 ts "time") /\ Forall case_ok (children ts).

Lemma parse_rcase_is_Some (tc : element) :
  is_Some (parse_rcase F py_float f0 tc) <-> case_ok tc.
Proof.
  unfold parse_rcase, case_ok.
  destruct (float_attr F py_float f0 tc "time"); simpl; split; intros H;
    first [by eauto | by inversion H].
Qed.

Lemma parse_case_is_Some (tc : element) :
  is_Some (parse_case F py_float f0 tc) <-> case_ok tc.
Proof.
  unfold parse_case, case_ok.
  destruct (float_attr F py_float f0 tc "time"); simpl; split; intros H;
    first [by eauto | by inversion H].
Qed.

Lemma parse_rsuites_is_Some (acc : rresults F) (ss : list element) :
  is_Some (parse_rsuites F py_float f0 acc ss) <-> Forall rsuite_ok ss.
Proof.
  revert acc. induction ss as [|ts ss IH]; intros acc; simpl.
  - split; [intros _; constructor | eauto].
  - rewrite Forall_cons. unfold rsuite_ok.
    destruct (int_attr ts "tests") as [n|] eqn:Hn; simpl;
      [|split; [intros [? Hx]; discriminate | intros [[[? Hx] _] _]; discriminate]].
    destruct (int_attr ts "failures") as [fa|] eqn:Hf; simpl;
      [|split; [intros [? Hx]; discriminate | intros [[_ [[? Hx] _]] _]; discriminate]].
    destruct (int_attr ts "skipped") as [sk|] eqn:Hs; simpl;
      [|split; [intros [? Hx]; discriminate | intros [[_ [_ [[? Hx] _]]] _]; discriminate]].
    destruct (mapM (parse_rcase F py_float f0) (children ts)) as [cs|] eqn:Hc; simpl.
    + rewrite IH.
      assert (Forall case_ok (children ts)).
      { assert (Hc' : is_Some (mapM (parse_rcase F py_float f0) (children ts)))
          by (rewrite Hc; by eexists).
        apply mapM_is_Some_1 in Hc'.
        eapply Forall_impl; [exact Hc'|]. intros x Hx. by apply parse_rcase_is_Some. }
      split; [intros Hr; by repeat split | intros [_ Hr]; exact Hr].
    + split; [intros [? Hx]; discriminate|].
      intros [[_ [_ [_ Hok]]] _].
      assert (is_Some (mapM (parse_rcase F py_float f0) (children ts))) as [? Hx];
        [|by rewrite Hc in Hx].
      apply mapM_is_Some_2. eapply Forall_impl; [exact Hok|].
      intros x Hx. by apply parse_rcase_is_Some.
Qed.

Lemma parse_suites_Some_ok (acc : gresults F) (ss : list element) (r : gresults F) :
  parse_suites F py_float f0 fadd acc ss = Some r -> Forall gsuite_ok ss.
Proof.
  revert acc. induction ss as [|ts ss IH]; intros acc H; simpl in H.
  - constructor.
  - destruct (suite_literal F py_float f0 ts) as [s0|] eqn:Hs; [|discriminate].
    simpl in H.
    destruct (mapM (parse_case F py_float f0) (children ts)) as [cs|] eqn:Hc;
      simpl in H; discriminate.
Qed.

(** The runner's parser: [None] exactly on an undecodable document or a
    malformed numeric attribute. *)
Lemma rparse_is_Some (root : element) :
  is_Some (rparse (Some root)) <-> Forall rsuite_ok (children root).
Proof.
  unfold parse_test_results_doc. simpl.
  rewrite <- (parse_rsuites_is_Some (RResults 0 0 0 0 [])).
  destruct (parse_rsuites F py_float f0 _ (children root)); simpl;
    first [reflexivity | split; intros _; eexists; reflexivity].
Qed.

Lemma int_attr_absent (e : element) (k : string) :
  get e k = None -> int_attr e k = Some 0%Z.
Proof. unfold int_attr. by intros ->. Qed.

Lemma float_attr_absent (e : element) (k : string) :
  get e k = None -> float_attr F py_float f0 e k = Some f0.
Proof. unfold float_attr. by intros ->. Qed.

(** C2: in both parsers the passed count is computed from the other
    counts when the result is built: the report generator subtracts
    failures, errors and skipped from the total; the runner, which reads
    no [errors] attribute, subtracts failures and skipped only. *)
Theorem passed_by_construction (doc : option element) :
  (forall r, gparse doc = Some r ->
     s_passed (summary_of r) =
       (s_total (summary_of r) - s_failed (summary_of r)
        - s_errors (summary_of r) - s_skipped (summary_of r))%Z) /\
  (forall r, rparse doc = Some r ->
     r_passed r = (r_total r - r_failed r - r_skipped r)%Z).
Proof.
  split; intros r H; destruct doc as [root|]; simpl in H; try discriminate.
  - unfold parse_junit_xml in H. simpl in H.
    destruct (parse_suites F py_float f0 fadd _ _); simpl in H; [|discriminate].
    by injection H as <-.
  - unfold parse_test_results_doc in H. simpl in H.
    destruct (parse_rsuites F py_float f0 _ _); simpl in H; [|discriminate].
    by injection H as <-.
Qed.

(** C3: how a case's markers decide its status.  The report generator
    checks failure, then error, then skipped, each check overwriting the
    status, so the last present marker wins (skipped > error > failure >
    passed); the runner only looks at the failure marker. *)
Theorem case_status_precedence (tc : element) :
  (forall t, parse_case F py_float f0 tc = Some t ->
     gt_status t =
       (if find tc "skipped" then "skipped"
        else if find tc "error" then "error"
        else if find tc "failure" then "failed" else "passed")%string) /\
  (forall t, parse_rcase F py_float f0 tc = Some t ->
     rt_status t = (if find tc "failure" then "failed" else "passed")%string).
Proof.
  unfold parse_case, parse_rcase.
  split; intros t H; destruct (float_attr F py_float f0 tc "time"); simpl in H;
    try discriminate; injection H as <-; simpl.
  - destruct (find tc "skipped"), (find tc "error"), (find tc "failure"); done.
  - done.
Qed.

(** C4: numeric attributes.  An absent attribute reads as zero; a present
    attribute that [int()] or [float()] rejects makes the parser return
    [None], as an undecodable document does.  For the runner's parser
    this is exact: it returns a result iff every suite's tests, failures
    and skipped and every case's time are absent or well-formed. *)
Theorem numeric_attributes (root : element) :
  (forall (e : element) (k : string), get e k = None ->
     int_attr e k = Some 0%Z /\ float_attr F py_float f0 e k = Some f0) /\
  (is_Some (rparse (Some root)) <-> Forall rsuite_ok (children root)) /\
  (~ Forall gsuite_ok (children root) -> gparse (Some root) = None) /\
  rparse None = None /\ gparse None = None.
Proof.
  split; [|split; [|split; [|split]]].
  - intros e k Hk. split; [by apply int_attr_absent | by apply float_attr_absent].
  - apply rparse_is_Some.
  - intros Hbad. unfold parse_junit_xml. simpl.
    destruct (parse_suites F py_float f0 fadd _ (children root)) as [r|] eqn:Hr;
      [|done].
    exfalso. apply Hbad. eapply parse_suites_Some_ok. exact Hr.
  - done.
  - done.
Qed.

(** C10: the report generator's parser returns [None] for every document
    whose root has at least one child: the suite dict keeps the later
    ["tests": []] entry, and [summary["total"] += suite["tests"]] adds a
    list to an int. *)
Theorem junit_nonempty_none (root : element) :
  children root <> [] -> gparse (Some root) = None.
Proof.
  intros Hne. unfold parse_junit_xml. simpl.
  destruct (children root) as [|ts rest]; [done|]. simpl.
  destruct (suite_literal F py_float f0 ts); simpl; [|done].
  by destruct (mapM (parse_case F py_float f0) (children ts)).
Qed.

End Generic.

End ParserFacts.

(** ** The parsers on sample documents *)
Module ParserSamples.
Import Docs.

Abbreviation gparse := (parse_junit_xml DecFloat.F DecFloat.py_float DecFloat.f0 DecFloat.fadd).
Abbreviation rparse := (parse_test_results_doc DecFloat.F DecFloat.py_float DecFloat.f0).

Lemma passed_by_construction_witness :
  (exists g, gparse (Some (root [])) = Some g /\
     s_passed (summary_of g) =
       (s_total (summary_of g) - s_failed (summary_of g)
        - s_errors (summary_of g) - s_skipped (summary_of g))%Z) /\
  (exists r, rparse (Some errored_suite) = Some r /\
     r_passed r = (r_total r - r_failed r - r_skipped r)%Z).
Proof.
  split; eexists; split; [vm_compute; reflexivity | | vm_compute; reflexivity |].
  - apply (proj1 (ParserFacts.passed_by_construction DecFloat.F DecFloat.py_float
                    DecFloat.f0 DecFloat.fadd (Some (root [])))).
    vm_compute. reflexivity.
  - apply (proj2 (ParserFacts.passed_by_construction DecFloat.F DecFloat.py_float
                    DecFloat.f0 DecFloat.fadd (Some errored_suite))).
    vm_compute. reflexivity.
Defined.

(** C2 fails for the runner's parser: a suite with [tests="1"] and
    [errors="1"] yields [passed = 1], not [1 - 0 - 1 - 0 = 0]. *)
Lemma runner_passed_counts_errored :
  exists r, rparse (Some errored_suite) = Some r /\
    int_attr (el "testsuite" [("errors", "1")] []) "errors" = Some 1%Z /\
    r_passed r = 1%Z /\ r_passed r <> (r_total r - r_failed r - 1 - r_skipped r)%Z.
Proof. eexists. split; [vm_compute; reflexivity|]. vm_compute. repeat split; discriminate. Qed.

Lemma case_status_precedence_witness :
  gt_status <$> parse_case DecFloat.F DecFloat.py_float DecFloat.f0 failure_and_skipped_case
    = Some "skipped"%string /\
  rt_status <$> parse_rcase DecFloat.F DecFloat.py_float DecFloat.f0 error_and_skipped_case
    = Some "passed"%string.
Proof.
  destruct (ParserFacts.case_status_precedence DecFloat.F DecFloat.py_float DecFloat.f0
              failure_and_skipped_case) as [Hg _].
  destruct (ParserFacts.case_status_precedence DecFloat.F DecFloat.py_float DecFloat.f0
              error_and_skipped_case) as [_ Hr].
  split.
  - destruct (parse_case _ _ _ failure_and_skipped_case) as [t|] eqn:E;
      [|vm_compute in E; discriminate].
    simpl. rewrite (Hg t eq_refl). vm_compute. reflexivity.
  - destruct (parse_rcase _ _ _ error_and_skipped_case) as [t|] eqn:E;
      [|vm_compute in E; discriminate].
    simpl. rewrite (Hr t eq_refl). vm_compute. reflexivity.
Defined.

(** C3 fails: a case with failure and skipped markers is "skipped" in the
    report generator; a case with error and skipped markers is "passed"
    in the runner's parsed result. *)
Lemma marker_precedence_counterexample :
  (gt_status <$> parse_case DecFloat.F DecFloat.py_float DecFloat.f0 failure_and_skipped_case)
    = Some "skipped"%string /\
  (map rt_status ∘ r_tests) <$> rparse (Some errored_suite) = Some ["passed"%string].
Proof. split; vm_compute; reflexivity. Qed.

Lemma bad_count_not_ok : ~ Forall (ParserFacts.gsuite_ok DecFloat.F DecFloat.py_float DecFloat.f0)
                            (children bad_count).
Proof.
  intros H. inversion H as [|x l Hx _]. destruct Hx as [[v Hv] _].
  vm_compute in Hv. discriminate.
Qed.

Lemma numeric_attributes_witness :
  get bad_count "tests" = None /\ int_attr bad_count "tests" = Some 0%Z /\
  gparse (Some bad_count) = None.
Proof.
  assert (Hg : get bad_count "tests" = None) by (vm_compute; reflexivity).
  destruct (ParserFacts.numeric_attributes DecFloat.F DecFloat.py_float DecFloat.f0
              DecFloat.fadd bad_count) as (Habs & _ & Hgen & _).
  split; [exact Hg|]. split; [exact (proj1 (Habs bad_count "tests" Hg))|].
  apply Hgen. apply bad_count_not_ok.
Defined.

(** C4 fails: the root decodes, yet [tests="abc"] makes both parsers
    return [None] instead of a result with that count read as zero. *)
Lemma malformed_count_aborts :
  get (root []) "tests" = None /\
  rparse (Some bad_count) = None /\ gparse (Some bad_count) = None.
Proof. vm_compute. repeat split. Qed.

Lemma junit_nonempty_none_witness :
  children disagreeing <> [] /\ gparse (Some disagreeing) = None.
Proof.
  assert (H : children disagreeing <> []) by (vm_compute; discriminate).
  split; [exact H|]. exact (ParserFacts.junit_nonempty_none _ _ _ _ _ H).
Defined.

End ParserSamples.

(** ** Status translation *)
Module StatusFacts.

Lemma gen_entries_status (F instant : Type) (tplus : instant -> F -> instant)
    (float_str : F -> string) (cfg : config) (start : instant) (tests : list (gtest F)) :
  map x_status (gen_entries F instant tplus float_str cfg start tests).1 =
  map (fun t => map_status_to_xray cfg (gt_status t)) tests.
Proof.
  revert start. induction tests as [|t tests IH]; intros start; simpl; [done|].
  specialize (IH (tplus start (gt_time t))).
  destruct (gen_entries F instant tplus float_str cfg _ tests) as [es fin]; simpl in *.
  by rewrite IH.
Qed.

(** C8: the report generator's status translation is the configured
    [testStatuses] table with the upper-cased status as fallback, applied
    to every case in order; with no table, passed, failed, error and
    skipped become PASSED, FAILED, ERROR and SKIPPED.  The runner's own
    report maps passed to PASSED and every other status to FAILED. *)
Theorem status_translation :
  (forall s, map_status_to_xray empty_config s = PyStr.upper s) /\
  map (map_status_to_xray empty_config) ["passed"; "failed"; "error"; "skipped"]%string
    = ["PASSED"; "FAILED"; "ERROR"; "SKIPPED"]%string /\
  (forall cfg tbl s, cfg_test_statuses cfg = Some tbl ->
     map_status_to_xray cfg s = default (PyStr.upper s) (tbl !! s)) /\
  (forall (F instant : Type) (tplus : instant -> F -> instant) (float_str : F -> string)
          cfg start (tests : list (gtest F)),
     map x_status (gen_entries F instant tplus float_str cfg start tests).1 =
     map (fun t => map_status_to_xray cfg (gt_status t)) tests) /\
  Runner.runner_status "passed" = "PASSED"%string /\
  (forall s, s <> "passed"%string -> Runner.runner_status s = "FAILED"%string).
Proof.
  split; [|split; [|split; [|split; [|split]]]].
  - intros s. unfold map_status_to_xray. simpl. by rewrite lookup_empty.
  - vm_compute. reflexivity.
  - intros cfg tbl s H. unfold map_status_to_xray. by rewrite H.
  - apply gen_entries_status.
  - reflexivity.
  - intros s Hs. unfold Runner.runner_status.
    destruct (String.eqb_spec s "passed"); [contradiction | reflexivity].
Qed.

Lemma status_translation_witness :
  map_status_to_xray (Config None (Some (list_to_map [("error", "FAILED")]%string))) "error"
    = "FAILED"%string /\
  Runner.runner_status "skipped" = "FAILED"%string.
Proof.
  destruct status_translation as (_ & _ & Hcfg & _ & _ & Hr).
  split.
  - rewrite (Hcfg (Config None (Some (list_to_map [("error", "FAILED")]%string)))
               (list_to_map [("error", "FAILED")]%string) "error" eq_refl).
    vm_compute. reflexivity.
  - apply Hr. discriminate.
Defined.

(** C8 fails: with the default (empty) configuration a case with an
    [error] marker has status "error", which is reported as ERROR. *)
Lemma errored_reported_as_error :
  (gt_status <$> parse_case DecFloat.F DecFloat.py_float DecFloat.f0 Docs.error_case)
    = Some "error"%string /\
  map_status_to_xray empty_config "error" = "ERROR"%string /\
  map_status_to_xray empty_config "error" <> "FAILED"%string.
Proof. vm_compute. repeat split. discriminate. Qed.

End StatusFacts.

(** ** The runner pipeline *)
Module RunnerFacts.
Import Runner.

Section Facts.
Variable F : Type.
Variable w : world F.


Lemma exits_1_ret {A} (a : A) : exits_1 (ret a).
Proof. intros st h st' H. discriminate. Qed.

Lemma exits_1_bind {A B} (m : M A) (k : A -> M B) :
  exits_1 m -> (forall a, exits_1 (k a)) -> exits_1 (bind m k).
Proof.
  intros Hm Hk st h st' H. unfold bind in H.
  destruct (m st) as [r0 st0] eqn:E. destruct r0 as [a|h0].
  - exact (Hk a st0 h st' H).
  - injection H as <- <-. exact (Hm st h0 st0 E).
Qed.

Lemma exits_1_prim :
  (forall argv env, exits_1 (run F w argv env)) /\
  (forall p, exits_1 (exists_ p)) /\ (forall p c, exits_1 (write p c)) /\
  (forall s d, exits_1 (copy2 s d)) /\ (forall A, exits_1 (@raise A)) /\
  exits_1 get /\ (forall b, exits_1 (set_leaks b)) /\ (forall b, exits_1 (set_force b)) /\
  (forall A, exits_1 (@sys_exit A 1)).
Proof.
  repeat split; intros; try intros st h st' H; unfold run, exists_, write, copy2, raise,
    get, set_leaks, set_force, sys_exit in *;
    repeat match goal with
           | H : context [match ?x with _ => _ end] |- _ => destruct x
           end; try discriminate; try (injection H as <- <-); auto.
  all: injection H as <- _; auto.
Qed.

Lemma run_main_exits_1 : exits_1 (run_main F w).
Proof.
  destruct exits_1_prim as (Hrun & Hex & Hwr & Hcp & Hra & Hget & Hsl & Hsf & Hse).
  unfold run_main, build_project, run_tests, run_tests_with_valgrind, parse_test_results,
    generate_xray_report_call, save_xray_report.
  repeat first
    [ apply exits_1_bind; [|intros ?]
    | apply exits_1_ret | apply Hrun | apply Hex | apply Hwr | apply Hcp | apply Hra
    | apply Hget | apply Hsl | apply Hsf | apply Hse
    | match goal with
      | |- exits_1 (if ?b then _ else _) => destruct b
      | |- exits_1 (match ?x with _ => _ end) => destruct x
      end ].
  all: intros st h st' H;
    repeat match goal with
           | H : context [match ?x with _ => _ end] |- _ => destruct x
           end; discriminate.
Qed.


Lemma bool_decide_is_Some_Some {A} (x : A) : bool_decide (is_Some (Some x)) = true.
Proof. apply bool_decide_eq_true. by eexists. Qed.

Lemma run_tests_clean (st : runner) (c : content) (r : proc_result)
    (m : gmap string content) :
  fs st !! test_executable = Some c ->
  w_exec w [test_executable; gtest_output temp_results_file] asan_env (fs st) = Some (r, m) ->
  Leak.check_memory_leaks (stderr r +:+ stdout r) = false ->
  default false (force_memory_leak_demo st) = false ->
  fst (run_tests F w st) =
    Ok (if (returncode r =? 0)%Z && bool_decide (is_Some (m !! temp_results_file))
        then Some (stamped F w "test_results_" ".xml") else None).
Proof.
  intros Hexe Hrun Hleak Hforce.
  unfold run_tests, bind, exists_, run, get, set_leaks, ret.
  rewrite Hexe, bool_decide_is_Some_Some. simpl. rewrite Hrun. simpl.
  rewrite Hleak. simpl. rewrite Hforce. simpl.
  destruct ((returncode r =? 0)%Z); simpl; [|done].
  destruct (m !! temp_results_file) eqn:Ht; simpl.
  - try rewrite bool_decide_is_Some_Some. unfold copy2. simpl. by rewrite Ht.
  - done.
Qed.

Lemma stamped_neq_build (p e q : string) :
  stamped F w p e <> ("build/" +:+ q)%string.
Proof. unfold stamped. simpl. discriminate. Qed.

Lemma stamped_neq_vg :
  stamped F w "valgrind_results_" ".xml" <> stamped F w "valgrind_log_" ".txt" /\
  stamped F w "test_results_valgrind_" ".xml" <> stamped F w "valgrind_results_" ".xml" /\
  stamped F w "test_results_valgrind_" ".xml" <> stamped F w "valgrind_log_" ".txt".
Proof. unfold stamped. simpl. repeat split; discriminate. Qed.

Lemma valgrind_simulated (st : runner) (wr r2 : proc_result) (m1 m2 : gmap string content) :
  w_exec w ["which"; "valgrind"]%string [] (fs st) = Some (wr, m1) ->
  returncode wr <> 0%Z ->
  w_exec w [test_executable; gtest_output temp_results_file] [] m1 = Some (r2, m2) ->
  let '(res, st') := run_tests_with_valgrind F w test_executable temp_results_file st in
  res = Ok (if bool_decide (is_Some (m2 !! temp_results_file))
            then Some (stamped F w "test_results_valgrind_" ".xml") else None) /\
  fs st' !! valgrind_xml = Some (Text simulated_xml) /\
  fs st' !! valgrind_log = Some (Text simulated_log) /\
  fs st' !! stamped F w "valgrind_results_" ".xml" = Some (Text simulated_xml) /\
  fs st' !! stamped F w "valgrind_log_" ".txt" = Some (Text simulated_log) /\
  (is_Some (m2 !! temp_results_file) ->
   fs st' !! stamped F w "test_results_valgrind_" ".xml" = m2 !! temp_results_file).
Proof.
  intros Hwhich Hrc Hrerun.
  unfold run_tests_with_valgrind, bind, run, ret, write, exists_, copy2, raise.
  rewrite Hwhich. simpl. apply Z.eqb_neq in Hrc. rewrite Hrc.
  cbn [fs set_fs]. rewrite Hrerun. cbn [fs set_fs].
  pose proof stamped_neq_vg as (N1 & N2 & N3).
  assert (N4 : valgrind_xml <> valgrind_log) by (cbv; discriminate).
  assert (N5 : temp_results_file <> valgrind_xml) by (cbv; discriminate).
  assert (N6 : temp_results_file <> valgrind_log) by (cbv; discriminate).
  assert (N7 : stamped F w "valgrind_results_" ".xml" <> temp_results_file) by (apply stamped_neq_build).
  assert (N8 : stamped F w "valgrind_log_" ".txt" <> temp_results_file) by (apply stamped_neq_build).
  assert (N9 : stamped F w "valgrind_results_" ".xml" <> valgrind_xml) by (apply stamped_neq_build).
  assert (N10 : stamped F w "valgrind_log_" ".txt" <> valgrind_log) by (apply stamped_neq_build).
  assert (N11 : stamped F w "valgrind_log_" ".txt" <> valgrind_xml) by (apply stamped_neq_build).
  assert (N12 : stamped F w "valgrind_results_" ".xml" <> valgrind_log) by (apply stamped_neq_build).
  assert (N13 : stamped F w "test_results_valgrind_" ".xml" <> valgrind_xml) by (apply stamped_neq_build).
  assert (N14 : stamped F w "test_results_valgrind_" ".xml" <> valgrind_log) by (apply stamped_neq_build).
  simplify_map_eq.
  destruct (m2 !! temp_results_file) as [c|] eqn:Ht; cbn [fs set_fs].
  - rewrite bool_decide_is_Some_Some. cbn [fs set_fs].
    rewrite lookup_insert_ne, lookup_insert_ne, lookup_insert_ne, lookup_insert_ne, Ht
      by congruence.
    cbn [fs set_fs]. simplify_map_eq. repeat split; intros; simplify_map_eq; done.
  - simpl. simplify_map_eq. repeat split; intros [? ?]; congruence.
Qed.

Lemma run_tests_missing (st : runner) :
  fs st !! test_executable = None -> run_tests F w st = (Ok None, st).
Proof.
  intros Hexe. unfold run_tests, bind, exists_, ret. rewrite Hexe. reflexivity.
Qed.

Lemma run_tests_escalated (st : runner) (c : content) (r : proc_result)
    (m : gmap string content) :
  fs st !! test_executable = Some c ->
  w_exec w [test_executable; gtest_output temp_results_file] asan_env (fs st) = Some (r, m) ->
  Leak.check_memory_leaks (stderr r +:+ stdout r) || default false (force_memory_leak_demo st)
    = true ->
  run_tests F w st =
    run_tests_with_valgrind F w test_executable temp_results_file
      (Runner m true (force_memory_leak_demo st)).
Proof.
  destruct st as [fs0 l f]. cbn [fs force_memory_leak_demo].
  intros Hexe Hrun Hesc.
  unfold run_tests, bind, exists_, run, get, set_leaks, ret.
  cbn [fs]. rewrite Hexe, bool_decide_is_Some_Some. simpl. rewrite Hrun. simpl.
  destruct (Leak.check_memory_leaks (stderr r +:+ stdout r)); simpl.
  - destruct (default false f); reflexivity.
  - simpl in Hesc. rewrite Hesc. reflexivity.
Qed.

Lemma valgrind_real (st : runner) (wr r2 : proc_result) (m1 m2 : gmap string content) :
  w_exec w ["which"; "valgrind"]%string [] (fs st) = Some (wr, m1) ->
  returncode wr = 0%Z ->
  w_exec w (valgrind_cmd test_executable temp_results_file) [] m1 = Some (r2, m2) ->
  is_Some (m2 !! valgrind_xml) ->
  fst (run_tests_with_valgrind F w test_executable temp_results_file st) =
    Ok (if bool_decide (is_Some (m2 !! temp_results_file))
        then Some (stamped F w "test_results_valgrind_" ".xml") else None).
Proof.
  intros Hwhich Hrc Hrerun [cx Hx].
  unfold run_tests_with_valgrind, bind, run, ret, write, exists_, copy2, raise.
  rewrite Hwhich. simpl. rewrite Hrc. simpl.
  cbn [fs set_fs]. rewrite Hrerun. cbn [fs set_fs].
  pose proof stamped_neq_vg as (N1 & N2 & N3).
  assert (N5 : temp_results_file <> valgrind_xml) by (cbv; discriminate).
  assert (N6 : temp_results_file <> valgrind_log) by (cbv; discriminate).
  assert (N7 : stamped F w "valgrind_results_" ".xml" <> temp_results_file) by (apply stamped_neq_build).
  assert (N8 : stamped F w "valgrind_log_" ".txt" <> temp_results_file) by (apply stamped_neq_build).
  assert (N9 : stamped F w "valgrind_results_" ".xml" <> valgrind_xml) by (apply stamped_neq_build).
  assert (N12 : stamped F w "valgrind_results_" ".xml" <> valgrind_log) by (apply stamped_neq_build).
  rewrite Hx, bool_decide_is_Some_Some. cbn [fs set_fs]. rewrite Hx. cbn [fs set_fs].
  rewrite lookup_insert_ne by congruence.
  destruct (m2 !! valgrind_log) as [cl|] eqn:Hl; cbn [fs set_fs].
  - rewrite bool_decide_is_Some_Some. cbn [fs set_fs]. rewrite lookup_insert_ne by congruence.
    rewrite Hl. cbn [fs set_fs].
    rewrite lookup_insert_ne, lookup_insert_ne by congruence.
    destruct (m2 !! temp_results_file) as [ct|] eqn:Ht; simpl; [|reflexivity].
    rewrite lookup_insert_ne, lookup_insert_ne by congruence. rewrite Ht. reflexivity.
  - simpl. rewrite lookup_insert_ne by congruence.
    destruct (m2 !! temp_results_file) as [ct|] eqn:Ht; simpl; [|reflexivity].
    rewrite lookup_insert_ne by congruence. rewrite Ht. reflexivity.
Qed.

Lemma run_main_reports (st st1 st2 : runner) (p : string) (cnt : content) (t : rresults F) :
  build_project F w st = (Ok true, st1) ->
  run_tests F w st1 = (Ok (Some p), st2) ->
  fs st2 !! p = Some cnt ->
  parse_test_results_doc F (w_py_float w) (w_f0 w) (w_xml_decode w (file_text F w cnt))
    = Some t ->
  forallb (fun x => w_finish_ok w (rt_time x)) (r_tests t) = true ->
  run_main F w st =
    (Ok (r_failed t =? 0)%Z,
     set_fs st2 (<[report_path F w := Json (generate_xray_report F w t "CHATCPP-TP-001"
                    (memory_analysis_of (memory_leaks_detected st2)))]> (fs st2))).
Proof.
  intros Hb Hr Hp Ht Hok.
  unfold run_main, bind. rewrite Hb. simpl. rewrite Hr.
  unfold parse_test_results. rewrite Hp, Ht. simpl.
  unfold generate_xray_report_call. rewrite Hok. reflexivity.
Qed.

Lemma run_main_report_raises (st st1 st2 : runner) (p : string) (cnt : content)
    (t : rresults F) :
  build_project F w st = (Ok true, st1) ->
  run_tests F w st1 = (Ok (Some p), st2) ->
  fs st2 !! p = Some cnt ->
  parse_test_results_doc F (w_py_float w) (w_f0 w) (w_xml_decode w (file_text F w cnt))
    = Some t ->
  forallb (fun x => w_finish_ok w (rt_time x)) (r_tests t) = false ->
  run_main F w st = (Halt Raised, st2).
Proof.
  intros Hb Hr Hp Ht Hok.
  unfold run_main, bind. rewrite Hb. simpl. rewrite Hr.
  unfold parse_test_results. rewrite Hp, Ht. simpl.
  unfold generate_xray_report_call. rewrite Hok. reflexivity.
Qed.

Lemma run_main_no_results (st st1 st2 : runner) :
  build_project F w st = (Ok true, st1) ->
  run_tests F w st1 = (Ok None, st2) ->
  run_main F w st = (Halt (SysExit 1), st2).
Proof.
  intros Hb Hr. unfold run_main, bind. rewrite Hb. simpl. rewrite Hr. reflexivity.
Qed.

Lemma script_run_main (fs0 : gmap string content) :
  fst (script F w fs0) =
    match fst (run_main F w (initial fs0)) with
    | Ok b => if b then 0%Z else 1%Z
    | Halt (SysExit c) => c
    | Halt Raised => 1%Z
    end.
Proof.
  unfold script. destruct (run_main F w (initial fs0)) as [[b|[c|]] st]; reflexivity.
Qed.

Lemma script_state (fs0 : gmap string content) :
  snd (script F w fs0) = snd (run_main F w (initial fs0)).
Proof.
  unfold script. destruct (run_main F w (initial fs0)) as [[b|[c|]] st]; reflexivity.
Qed.

Lemma keeps_flag_bind {A B} (m : M A) (k : A -> M B) :
  keeps_flag m -> (forall a, keeps_flag (k a)) -> keeps_flag (bind m k).
Proof.
  intros Hm Hk st. unfold bind.
  pose proof (Hm st) as H0. destruct (m st) as [[a|h] st0]; simpl in *.
  - rewrite Hk. exact H0.
  - exact H0.
Qed.

Lemma keeps_flag_prim :
  (forall A (a : A), keeps_flag (ret a)) /\
  (forall argv env, keeps_flag (run F w argv env)) /\
  (forall p, keeps_flag (exists_ p)) /\ (forall p c, keeps_flag (write p c)) /\
  (forall s d, keeps_flag (copy2 s d)) /\ (forall A, keeps_flag (@raise A)).
Proof.
  repeat split; intros; intros st; unfold ret, run, exists_, write, copy2, raise;
    repeat match goal with
           | |- context [match ?x with _ => _ end] => destruct x
           end; reflexivity.
Qed.

Lemma run_tests_with_valgrind_keeps (exe results : string) :
  keeps_flag (run_tests_with_valgrind F w exe results).
Proof.
  destruct keeps_flag_prim as (Hret & Hrun & Hex & Hwr & Hcp & Hra).
  unfold run_tests_with_valgrind.
  repeat first
    [ apply keeps_flag_bind; [|intros ?]
    | apply Hret | apply Hrun | apply Hex | apply Hwr | apply Hcp | apply Hra
    | match goal with
      | |- keeps_flag (if ?b then _ else _) => destruct b
      end ].
Qed.

Lemma run_tests_escalated_flag (st : runner) (c : content) (r : proc_result)
    (m : gmap string content) :
  fs st !! test_executable = Some c ->
  w_exec w [test_executable; gtest_output temp_results_file] asan_env (fs st) = Some (r, m) ->
  Leak.check_memory_leaks (stderr r +:+ stdout r) || default false (force_memory_leak_demo st)
    = true ->
  memory_leaks_detected (snd (run_tests F w st)) = true.
Proof.
  intros Hexe Hrun Hesc. rewrite (run_tests_escalated st c r m Hexe Hrun Hesc).
  apply run_tests_with_valgrind_keeps.
Qed.

Lemma run_main_ok_inv (st st' : runner) (b : bool) :
  run_main F w st = (Ok b, st') ->
  exists st1 st2 p cnt t,
    build_project F w st = (Ok true, st1) /\
    run_tests F w st1 = (Ok (Some p), st2) /\
    fs st2 !! p = Some cnt /\
    parse_test_results_doc F (w_py_float w) (w_f0 w) (w_xml_decode w (file_text F w cnt))
      = Some t /\
    forallb (fun x => w_finish_ok w (rt_time x)) (r_tests t) = true /\
    b = (r_failed t =? 0)%Z /\
    st' = set_fs st2 (<[report_path F w := Json (generate_xray_report F w t "CHATCPP-TP-001"
                         (memory_analysis_of (memory_leaks_detected st2)))]> (fs st2)).
Proof.
  intros H. unfold run_main, bind in H.
  destruct (build_project F w st) as [[b0|h] st1] eqn:Hb; [|discriminate].
  destruct b0; simpl in H; [|discriminate].
  destruct (run_tests F w st1) as [[[p|]|h] st2] eqn:Hr; try discriminate.
  unfold parse_test_results in H.
  destruct (fs st2 !! p) as [cnt|] eqn:Hp; [|discriminate].
  destruct (parse_test_results_doc F (w_py_float w) (w_f0 w) (w_xml_decode w (file_text F w cnt)))
    as [t|] eqn:Ht; [|discriminate].
  unfold generate_xray_report_call in H.
  destruct (forallb (fun x => w_finish_ok w (rt_time x)) (r_tests t)) eqn:Hok;
    [|discriminate].
  unfold save_xray_report, write, ret, get in H. simpl in H.
  injection H as <- <-.
  exists st1, st2, p, cnt, t. repeat split; auto.
Qed.

End Facts.
End RunnerFacts.

(** ** The runner's pipeline: run step, escalation, report, exit status *)
Module PipelineFacts.
Import Runner RunnerFacts.

Section Claims.
Variable F : Type.
Variable w : world F.

(** C1.  A missing test executable makes the run step return [None].
    Without escalation the run step returns the result document exactly
    when the AddressSanitizer run exits with 0 and the document exists: a
    non-zero exit gives [None] although the document exists.  With
    escalation the exit codes are not looked at: the copied document is
    returned whenever the rerun leaves a result file (with Valgrind
    installed, given that it wrote its XML report).  A [None] from the run
    step ends the pipeline with [sys.exit(1)], so without escalation the
    pipeline only finishes normally (and reaches its reporting of failed
    tests) after a run that exited with 0. *)
Theorem run_step_exit_code (st : runner) :
  (fs st !! test_executable = None -> fst (run_tests F w st) = Ok None) /\
  (forall c r m,
     fs st !! test_executable = Some c ->
     w_exec w [test_executable; gtest_output temp_results_file] asan_env (fs st) = Some (r, m) ->
     Leak.check_memory_leaks (stderr r +:+ stdout r) = false ->
     default false (force_memory_leak_demo st) = false ->
     fst (run_tests F w st) =
       Ok (if (returncode r =? 0)%Z && bool_decide (is_Some (m !! temp_results_file))
           then Some (stamped F w "test_results_" ".xml") else None)) /\
  (forall c r m wr m1 r2 m2,
     fs st !! test_executable = Some c ->
     w_exec w [test_executable; gtest_output temp_results_file] asan_env (fs st) = Some (r, m) ->
     Leak.check_memory_leaks (stderr r +:+ stdout r) || default false (force_memory_leak_demo st)
       = true ->
     w_exec w ["which"; "valgrind"]%string [] m = Some (wr, m1) ->
     (returncode wr = 0%Z ->
      w_exec w (valgrind_cmd test_executable temp_results_file) [] m1 = Some (r2, m2) /\
      is_Some (m2 !! valgrind_xml)) ->
     (returncode wr <> 0%Z ->
      w_exec w [test_executable; gtest_output temp_results_file] [] m1 = Some (r2, m2)) ->
     is_Some (m2 !! temp_results_file) ->
     fst (run_tests F w st) = Ok (Some (stamped F w "test_results_valgrind_" ".xml"))) /\
  (forall st0 st', build_project F w st0 = (Ok true, st) ->
     run_tests F w st = (Ok None, st') -> run_main F w st0 = (Halt (SysExit 1), st')) /\
  (forall st0 c r m b st',
     build_project F w st0 = (Ok true, st) ->
     fs st !! test_executable = Some c ->
     w_exec w [test_executable; gtest_output temp_results_file] asan_env (fs st) = Some (r, m) ->
     Leak.check_memory_leaks (stderr r +:+ stdout r) = false ->
     default false (force_memory_leak_demo st) = false ->
     run_main F w st0 = (Ok b, st') ->
     returncode r = 0%Z).
Proof.
  split; [|split; [|split; [|split]]].
  - intros Hexe. by rewrite (run_tests_missing F w).
  - intros c r m Hexe Hrun Hleak Hforce.
    exact (run_tests_clean F w st c r m Hexe Hrun Hleak Hforce).
  - intros c r m wr m1 r2 m2 Hexe Hrun Hesc Hwhich Hreal Hsim Ht.
    rewrite (run_tests_escalated F w st c r m Hexe Hrun Hesc).
    destruct (Z.eq_dec (returncode wr) 0%Z) as [E|E].
    + destruct (Hreal E) as [Hvg Hx].
      rewrite (valgrind_real F w (Runner m true (force_memory_leak_demo st)) wr r2 m1 m2 Hwhich E Hvg Hx).
      by rewrite (bool_decide_eq_true_2 _ Ht).
    + pose proof (valgrind_simulated F w (Runner m true (force_memory_leak_demo st)) wr r2 m1 m2
                    Hwhich E (Hsim E)) as Hs.
      destruct (run_tests_with_valgrind F w test_executable temp_results_file _) as [res st'].
      destruct Hs as [-> _]. by rewrite (bool_decide_eq_true_2 _ Ht).
  - intros st0 st' Hb Hr. exact (run_main_no_results F w st0 st st' Hb Hr).
  - intros st0 c r m b st' Hb Hexe Hrun Hleak Hforce H.
    destruct (run_main_ok_inv F w st0 st' b H) as (st1 & st2 & p & _ & _ & Hb' & Hr & _).
    rewrite Hb in Hb'. injection Hb' as <-.
    pose proof (run_tests_clean F w st c r m Hexe Hrun Hleak Hforce) as Hc.
    rewrite Hr in Hc. simpl in Hc.
    destruct ((returncode r =? 0)%Z) eqn:E; [by apply Z.eqb_eq|discriminate].
Qed.

(** C5.  When escalation runs and [which valgrind] fails, the rerun
    without Valgrind is followed by writing the fixed simulated XML report
    (which is well-formed) and log into [build/] and copying both to the
    reports directory.  The run step returns the copied result document
    exactly when the rerun left a result file, whatever the exit codes;
    otherwise the pipeline ends with [sys.exit(1)] and no report.  When
    the returned document parses, the pipeline saves the report if every
    case time can be added to the current date; otherwise building the
    report raises and no report is saved. *)
Theorem simulated_escalation (st : runner) (c : content) (r wr r2 : proc_result)
    (m m1 m2 : gmap string content) :
  fs st !! test_executable = Some c ->
  w_exec w [test_executable; gtest_output temp_results_file] asan_env (fs st) = Some (r, m) ->
  Leak.check_memory_leaks (stderr r +:+ stdout r) || default false (force_memory_leak_demo st)
    = true ->
  w_exec w ["which"; "valgrind"]%string [] m = Some (wr, m1) ->
  returncode wr <> 0%Z ->
  w_exec w [test_executable; gtest_output temp_results_file] [] m1 = Some (r2, m2) ->
  xml_well_formed simulated_xml = true /\
  fs (snd (run_tests F w st)) !! valgrind_xml = Some (Text simulated_xml) /\
  fs (snd (run_tests F w st)) !! valgrind_log = Some (Text simulated_log) /\
  fs (snd (run_tests F w st)) !! stamped F w "valgrind_results_" ".xml"
    = Some (Text simulated_xml) /\
  fs (snd (run_tests F w st)) !! stamped F w "valgrind_log_" ".txt"
    = Some (Text simulated_log) /\
  fst (run_tests F w st) =
    Ok (if bool_decide (is_Some (m2 !! temp_results_file))
        then Some (stamped F w "test_results_valgrind_" ".xml") else None) /\
  (forall st0, build_project F w st0 = (Ok true, st) ->
     (m2 !! temp_results_file = None ->
      run_main F w st0 = (Halt (SysExit 1), snd (run_tests F w st))) /\
     (forall cnt t, m2 !! temp_results_file = Some cnt ->
      parse_test_results_doc F (w_py_float w) (w_f0 w) (w_xml_decode w (file_text F w cnt))
        = Some t ->
      (forallb (fun x => w_finish_ok w (rt_time x)) (r_tests t) = true ->
       run_main F w st0 =
         (Ok (r_failed t =? 0)%Z,
          set_fs (snd (run_tests F w st))
            (<[report_path F w := Json (generate_xray_report F w t "CHATCPP-TP-001"
                  "AddressSanitizer + Valgrind")]> (fs (snd (run_tests F w st)))))) /\
      (forallb (fun x => w_finish_ok w (rt_time x)) (r_tests t) = false ->
       run_main F w st0 = (Halt Raised, snd (run_tests F w st))))).
Proof.
  intros Hexe Hrun Hesc Hwhich Hrc Hrerun.
  pose proof (run_tests_escalated_flag F w st c r m Hexe Hrun Hesc) as Hflag.
  rewrite (run_tests_escalated F w st c r m Hexe Hrun Hesc) in *.
  pose proof (valgrind_simulated F w (Runner m true (force_memory_leak_demo st)) wr r2 m1 m2
                Hwhich Hrc Hrerun) as Hs.
  destruct (run_tests_with_valgrind F w test_executable temp_results_file _) as [res st']
    eqn:E.
  simpl in Hflag |- *.
  destruct Hs as (Hres & Hx & Hl & Hsx & Hsl & Hcopy).
  split; [vm_compute; reflexivity|].
  do 5 (split; [assumption|]).
  intros st0 Hb. split.
  - intros Ht. apply (run_main_no_results F w st0 st); [exact Hb|].
    rewrite (run_tests_escalated F w st c r m Hexe Hrun Hesc), E, Hres, Ht. reflexivity.
  - intros cnt t Ht Hp.
    assert (Hrt : run_tests F w st = (Ok (Some (stamped F w "test_results_valgrind_" ".xml")), st')).
    { rewrite (run_tests_escalated F w st c r m Hexe Hrun Hesc), E, Hres, Ht. reflexivity. }
    assert (Hst : fs st' !! stamped F w "test_results_valgrind_" ".xml" = Some cnt)
      by (rewrite Hcopy; [exact Ht|]; by rewrite Ht).
    split; intros Hok.
    + rewrite (run_main_reports F w st0 st st' _ cnt t Hb Hrt Hst Hp Hok). by rewrite Hflag.
    + exact (run_main_report_raises F w st0 st st' _ cnt t Hb Hrt Hst Hp Hok).
Qed.

(** C6.  The description of the runner's report is determined by
    [memory_leaks_detected] alone, and after an escalation that flag is set
    whether Valgrind ran or was simulated: every report saved after an
    escalation is described as
    ["Automated test execution via CI pipeline | Memory Analysis: AddressSanitizer + Valgrind"],
    with no mention of a simulation. *)
Theorem report_description_fixed (st0 st : runner) (c : content) (r : proc_result)
    (m : gmap string content) :
  build_project F w st0 = (Ok true, st) ->
  fs st !! test_executable = Some c ->
  w_exec w [test_executable; gtest_output temp_results_file] asan_env (fs st) = Some (r, m) ->
  Leak.check_memory_leaks (stderr r +:+ stdout r) || default false (force_memory_leak_demo st)
    = true ->
  (forall t plan leaks,
     info_description (generate_xray_report F w t plan (memory_analysis_of leaks)) =
       ("Automated test execution via CI pipeline | Memory Analysis: "
        +:+ (if leaks then "AddressSanitizer + Valgrind" else "AddressSanitizer Clean"))%string) /\
  (forall b st', run_main F w st0 = (Ok b, st') ->
     exists rep, fs st' !! report_path F w = Some (Json rep) /\
       info_description rep =
         "Automated test execution via CI pipeline | Memory Analysis: AddressSanitizer + Valgrind"%string).
Proof.
  intros Hb Hexe Hrun Hesc. split.
  - intros t plan []; reflexivity.
  - intros b st' H.
    destruct (run_main_ok_inv F w st0 st' b H) as (st1 & st2 & p & cnt & t & Hb' & Hr & _ & _ & _ & _ & ->).
    rewrite Hb in Hb'. injection Hb' as <-.
    pose proof (run_tests_escalated_flag F w st c r m Hexe Hrun Hesc) as Hflag.
    rewrite Hr in Hflag. simpl in Hflag.
    exists (generate_xray_report F w t "CHATCPP-TP-001" (memory_analysis_of (memory_leaks_detected st2))).
    split; [cbn [fs set_fs]; by simplify_map_eq|].
    rewrite Hflag. reflexivity.
Qed.

(** C7.  The script exits with status 0 exactly when the pipeline built
    the project, obtained a result document and parsed it, every case
    time could be added to the current date, the report was saved, and
    the parsed [failures] total is 0; the [errors] of the document are
    not considered.  Every other outcome (a failed build, no result
    document, a document that does not parse, a case time out of the
    [datetime] range, an uncaught exception) gives status 1. *)
Theorem exit_status (fs0 : gmap string content) :
  (fst (script F w fs0) = 0%Z <->
   exists st1 st2 p cnt t,
     build_project F w (initial fs0) = (Ok true, st1) /\
     run_tests F w st1 = (Ok (Some p), st2) /\
     fs st2 !! p = Some cnt /\
     parse_test_results_doc F (w_py_float w) (w_f0 w) (w_xml_decode w (file_text F w cnt))
       = Some t /\
     forallb (fun x => w_finish_ok w (rt_time x)) (r_tests t) = true /\
     fs (snd (script F w fs0)) !! report_path F w =
       Some (Json (generate_xray_report F w t "CHATCPP-TP-001"
                     (memory_analysis_of (memory_leaks_detected st2)))) /\
     r_failed t = 0%Z) /\
  (fst (script F w fs0) = 0%Z \/ fst (script F w fs0) = 1%Z).
Proof.
  rewrite (script_run_main F w), (script_state F w).
  destruct (run_main F w (initial fs0)) as [[b|h] st'] eqn:E; simpl.
  - split; [split|].
    + intros Hb. destruct b; [|discriminate].
      destruct (run_main_ok_inv F w _ _ _ E)
        as (st1 & st2 & p & cnt & t & H1 & H2 & H3 & H4 & Hok & H5 & ->).
      exists st1, st2, p, cnt, t.
      do 5 (split; [assumption|]). split.
      * cbn [fs set_fs]. by simplify_map_eq.
      * symmetry in H5. by apply Z.eqb_eq.
    + intros (st1 & st2 & p & cnt & t & H1 & H2 & H3 & H4 & Hok & _ & H5).
      rewrite (run_main_reports F w _ _ _ _ _ _ H1 H2 H3 H4 Hok) in E. injection E as <- _.
      by rewrite H5.
    + destruct b; auto.
  - destruct (run_main_exits_1 F w (initial fs0) h st' E) as [->| ->];
      (split; [split; [discriminate|]|auto]);
      intros (st1 & st2 & p & cnt & t & H1 & H2 & H3 & H4 & Hok & _ & H5);
      rewrite (run_main_reports F w _ _ _ _ _ _ H1 H2 H3 H4 Hok) in E; discriminate.
Qed.

End Claims.
End PipelineFacts.

(** ** The pipeline on the sample environments *)
Module PipelineSamples.
Import Runner SampleWorld PipelineFacts.

Lemma run_step_exit_code_witness :
  fst (run_tests _ (world_of failing_run) st_built) = Ok None.
Proof.
  destruct (run_step_exit_code _ (world_of failing_run) st_built) as (_ & Hclean & _).
  rewrite (Hclean (Text "ELF") (ok_proc 1 "") (with_doc failing_run true built_fs)
             ltac:(vm_compute; reflexivity) ltac:(vm_compute; reflexivity)
             ltac:(vm_compute; reflexivity) ltac:(vm_compute; reflexivity)).
  vm_compute. reflexivity.
Defined.

(** A test executable that fails a test exits with 1 after writing its
    result document; no leak is reported.  The run step returns [None] and
    the script exits with 1 without a report, the document left in
    [build/]. *)
Lemma failing_run_aborts :
  fst (run_tests _ (world_of failing_run) st_built) = Ok None /\
  fst (script _ (world_of failing_run) empty_fs) = 1%Z /\
  fs (snd (script _ (world_of failing_run) empty_fs)) !! temp_results_file
    = Some (Text (render Docs.one_failure)) /\
  fs (snd (script _ (world_of failing_run) empty_fs)) !! report_path _ (world_of failing_run)
    = None.
Proof. vm_compute. repeat split. Qed.

Lemma simulated_escalation_witness :
  fst (run_tests _ (world_of leak_simulated) st_built)
    = Ok (Some (stamped _ (world_of leak_simulated) "test_results_valgrind_" ".xml")) /\
  fs (snd (run_tests _ (world_of leak_simulated) st_built)) !! valgrind_xml
    = Some (Text simulated_xml) /\
  run_main _ (world_of leak_huge_time) (initial empty_fs) =
    (Halt Raised, snd (run_tests _ (world_of leak_huge_time) st_built)).
Proof.
  pose proof (simulated_escalation _ (world_of leak_huge_time) st_built (Text "ELF")
                (ok_proc 1 leak_stderr) (ok_proc 1 "") (ok_proc 1 "") huge_fs huge_fs huge_fs
                ltac:(vm_compute; reflexivity) ltac:(vm_compute; reflexivity)
                ltac:(vm_compute; reflexivity) ltac:(vm_compute; reflexivity)
                ltac:(discriminate) ltac:(vm_compute; reflexivity))
    as (_ & _ & _ & _ & _ & _ & Hmain).
  destruct (Hmain (initial empty_fs) ltac:(vm_compute; reflexivity)) as [_ Hdoc].
  destruct (parse_test_results_doc _ (w_py_float (world_of leak_huge_time))
              (w_f0 (world_of leak_huge_time))
              (w_xml_decode (world_of leak_huge_time)
                 (file_text _ (world_of leak_huge_time) (Text (render Docs.huge_time)))))
    as [t|] eqn:Ht; [|vm_compute in Ht; discriminate].
  destruct (Hdoc (Text (render Docs.huge_time)) t ltac:(vm_compute; reflexivity) Ht)
    as [_ Hraise].
  assert (Hok : forallb (fun x => w_finish_ok (world_of leak_huge_time) (rt_time x)) (r_tests t)
                = false).
  { vm_compute in Ht. injection Ht as <-. vm_compute. reflexivity. }
  specialize (Hraise Hok).
  pose proof (simulated_escalation _ (world_of leak_simulated) st_built (Text "ELF")
                (ok_proc 1 leak_stderr) (ok_proc 1 "") (ok_proc 1 "") leak_fs leak_fs leak_fs
                ltac:(vm_compute; reflexivity) ltac:(vm_compute; reflexivity)
                ltac:(vm_compute; reflexivity) ltac:(vm_compute; reflexivity)
                ltac:(discriminate) ltac:(vm_compute; reflexivity))
    as (_ & Hx & _ & _ & _ & Hres & _).
  split; [rewrite Hres; vm_compute; reflexivity | split; [exact Hx | exact Hraise]].
Defined.

(** AddressSanitizer reports a use after free from a crash that happens
    before any result is written; Valgrind is not installed and the rerun
    crashes the same way.  The simulated files are written, but the run
    step returns [None] and the script exits with 1 without a report. *)
Lemma crash_without_valgrind_aborts :
  fst (run_tests _ (world_of crash_simulated) st_built) = Ok None /\
  fst (script _ (world_of crash_simulated) empty_fs) = 1%Z /\
  fs (snd (script _ (world_of crash_simulated) empty_fs)) !! valgrind_xml
    = Some (Text simulated_xml) /\
  fs (snd (script _ (world_of crash_simulated) empty_fs))
    !! report_path _ (world_of crash_simulated) = None.
Proof. vm_compute. repeat split. Qed.

Lemma report_description_fixed_witness :
  exists rep,
    fs (snd (run_main _ (world_of leak_simulated) (initial empty_fs)))
      !! report_path _ (world_of leak_simulated) = Some (Json rep) /\
    info_description rep =
      "Automated test execution via CI pipeline | Memory Analysis: AddressSanitizer + Valgrind"%string.
Proof.
  destruct (report_description_fixed _ (world_of leak_simulated) (initial empty_fs) st_built
              (Text "ELF") (ok_proc 1 leak_stderr) leak_fs
              ltac:(vm_compute; reflexivity) ltac:(vm_compute; reflexivity)
              ltac:(vm_compute; reflexivity) ltac:(vm_compute; reflexivity)) as [_ H].
  apply (H false). vm_compute. reflexivity.
Defined.

(** With Valgrind missing ([leak_simulated]) and with Valgrind installed
    ([leak_real]) the saved reports carry the same description, which does
    not mention a simulation. *)
Lemma simulated_report_indistinguishable :
  saved_description leak_simulated = saved_description leak_real /\
  saved_description leak_simulated =
    Some "Automated test execution via CI pipeline | Memory Analysis: AddressSanitizer + Valgrind"%string /\
  PyStr.contains "simulat"
    (PyStr.lower "Automated test execution via CI pipeline | Memory Analysis: AddressSanitizer + Valgrind")
    = false.
Proof. vm_compute. repeat split. Qed.

(** A result document whose suite counts one error (its single case
    carries an [error] marker) and no failure: the script saves the report
    and exits with 0.  A clean passing run whose document counts no
    failure and no error, but whose case reports a time of 10^12 s: the
    report step raises and the script exits with 1 without a report. *)
Lemma exit_status_counterexamples :
  ET.get (hd Docs.errored_suite (children Docs.errored_suite)) "errors" = Some "1"%string /\
  is_Some (ET.find Docs.error_and_skipped_case "error") /\
  fst (script _ (world_of errored_run) empty_fs) = 0%Z /\
  is_Some (fs (snd (script _ (world_of errored_run) empty_fs))
             !! report_path _ (world_of errored_run)) /\
  fst (run_main _ (world_of clean_huge_time) (initial empty_fs)) = Halt Raised /\
  fst (script _ (world_of clean_huge_time) empty_fs) = 1%Z /\
  fs (snd (script _ (world_of clean_huge_time) empty_fs))
    !! report_path _ (world_of clean_huge_time) = None.
Proof. vm_compute. repeat split; eexists; reflexivity. Qed.

End PipelineSamples.

(** ** More properties of the runner's parser and report *)
Module RunnerParseFacts.
Import Runner Views.

Section Generic.
Variable F : Type.
Variable py_float : string -> option F.
Variable f0 : F.

Lemma parse_rcase_fields (tc : element) (t : rtest F) :
  parse_rcase F py_float f0 tc = Some t ->
  rt_name t = ET.get tc "name" /\
  rt_status t = (if find tc "failure" then "failed" else "passed")%string /\
  rt_failure t = find tc "failure" ≫= text.
Proof.
  unfold parse_rcase. destruct (float_attr F py_float f0 tc "time"); simpl; [|discriminate].
  intros H. injection H as <-. auto.
Qed.

Lemma parse_rsuites_spec (acc r : rresults F) (ss : list element) :
  parse_rsuites F py_float f0 acc ss = Some r ->
  exists cs,
    Forall2 (fun tc t => parse_rcase F py_float f0 tc = Some t) (concat (map children ss)) cs /\
    r_tests r = r_tests acc ++ cs /\
    r_total r = (r_total acc + attr_total "tests" ss)%Z /\
    r_failed r = (r_failed acc + attr_total "failures" ss)%Z /\
    r_skipped r = (r_skipped acc + attr_total "skipped" ss)%Z.
Proof.
  revert acc. induction ss as [|ts ss IH]; intros acc H; simpl in H.
  - injection H as <-. exists []. simpl. rewrite app_nil_r. repeat split; auto; lia.
  - destruct (int_attr ts "tests") as [n|] eqn:Hn; simpl in H; [|discriminate].
    destruct (int_attr ts "failures") as [fa|] eqn:Hf; simpl in H; [|discriminate].
    destruct (int_attr ts "skipped") as [sk|] eqn:Hs; simpl in H; [|discriminate].
    destruct (mapM (parse_rcase F py_float f0) (children ts)) as [cs0|] eqn:Hc;
      simpl in H; [|discriminate].
    destruct (IH _ H) as (cs & Hall & Htests & Htot & Hfail & Hskip).
    exists (cs0 ++ cs). simpl. rewrite Hn, Hf, Hs. simpl in *.
    split; [apply Forall2_app; [by apply mapM_Some_1|exact Hall]|].
    rewrite Htests, Htot, Hfail, Hskip. rewrite <- app_assoc. repeat split; lia.
Qed.

Lemma parse_doc_spec (root : element) (t : rresults F) :
  parse_test_results_doc F py_float f0 (Some root) = Some t ->
  exists cs,
    Forall2 (fun tc t => parse_rcase F py_float f0 tc = Some t) (suite_cases root) cs /\
    r_tests t = cs /\
    r_total t = attr_total "tests" (children root) /\
    r_failed t = attr_total "failures" (children root) /\
    r_skipped t = attr_total "skipped" (children root).
Proof.
  unfold parse_test_results_doc. simpl.
  destruct (parse_rsuites F py_float f0 (RResults 0 0 0 0 []) (children root)) as [r|] eqn:E;
    simpl; [|discriminate].
  intros H. injection H as <-.
  destruct (parse_rsuites_spec _ _ _ E) as (cs & Hall & Ht & Htot & Hf & Hs).
  exists cs. simpl in *. repeat split; auto.
Qed.

(** X2: the runner's totals are sums of the suites' [tests], [failures]
    and [skipped] attributes, whatever the cases contain, and its test list
    has one entry for every child of every suite, whatever its tag. *)
Theorem runner_counts_from_attributes (root : element) (t : rresults F) :
  parse_test_results_doc F py_float f0 (Some root) = Some t ->
  r_total t = attr_total "tests" (children root) /\
  r_failed t = attr_total "failures" (children root) /\
  r_skipped t = attr_total "skipped" (children root) /\
  length (r_tests t) = length (suite_cases root).
Proof.
  intros H. destruct (parse_doc_spec root t H) as (cs & Hall & -> & ? & ? & ?).
  repeat split; auto. symmetry. exact (Forall2_length _ _ _ Hall).
Qed.

End Generic.

Lemma report_follows_cases (F : Type) (w : world F) (root : element) (t : rresults F)
    (plan ma : string) :
  parse_test_results_doc F (w_py_float w) (w_f0 w) (Some root) = Some t ->
  map (fun e => (re_testKey e, re_status e)) (report_tests (generate_xray_report F w t plan ma)) =
  map (fun tc => (runner_key (ET.get tc "name"),
                  if find tc "failure" then "FAILED"%string else "PASSED"%string))
      (suite_cases root).
Proof.
  intros H. destruct (parse_doc_spec _ _ _ root t H) as (cs & Hall & Ht & _).
  simpl. rewrite Ht. clear H Ht.
  induction Hall as [|tc x l cs' Hx _ IH]; simpl; [done|]. rewrite IH.
  destruct (parse_rcase_fields _ _ _ tc x Hx) as (Hn & Hs & _).
  unfold runner_entry. simpl. rewrite Hn, Hs.
  destruct (ET.get tc "name"); destruct (find tc "failure"); reflexivity.
Qed.

(** X1: the runner's report has one entry per child of every suite, in
    document order; its key comes from the case's [name] (the five mapped
    names, ["CHATCPP-TC-" + name] otherwise, ["CHATCPP-TC-None"] without
    a name) and its status is FAILED exactly when the case has a
    [failure] child, PASSED otherwise. *)
Theorem runner_report_follows_cases (F : Type) (w : world F) (root : element) (t : rresults F)
    (plan ma : string) :
  parse_test_results_doc F (w_py_float w) (w_f0 w) (Some root) = Some t ->
  map (fun e => (re_testKey e, re_status e)) (report_tests (generate_xray_report F w t plan ma)) =
  map (fun tc => (runner_key (ET.get tc "name"),
                  if find tc "failure" then "FAILED"%string else "PASSED"%string))
      (suite_cases root).
Proof. exact (report_follows_cases F w root t plan ma). Qed.
End RunnerParseFacts.

(** ** More properties of the runner's run step *)
Module RunStepFacts.
Import Runner RunnerFacts.

Section Facts.
Variable F : Type.
Variable w : world F.

Lemma path_facts :
  temp_results_file <> valgrind_xml /\ temp_results_file <> valgrind_log /\
  valgrind_xml <> valgrind_log /\
  stamped F w "test_results_valgrind_" ".xml" <> temp_results_file /\
  stamped F w "test_results_" ".xml" <> temp_results_file /\
  stamped F w "valgrind_results_" ".xml" <> temp_results_file /\
  stamped F w "valgrind_log_" ".txt" <> temp_results_file.
Proof.
  repeat split; try (cbv; discriminate); apply stamped_neq_build.
Qed.

Lemma valgrind_result_copy (st : runner) (p : string) :
  fst (run_tests_with_valgrind F w test_executable temp_results_file st) = Ok (Some p) ->
  p = stamped F w "test_results_valgrind_" ".xml" /\
  fs (snd (run_tests_with_valgrind F w test_executable temp_results_file st)) !! p =
  fs (snd (run_tests_with_valgrind F w test_executable temp_results_file st))
    !! temp_results_file /\
  is_Some (fs (snd (run_tests_with_valgrind F w test_executable temp_results_file st)) !! p).
Proof.
  pose proof path_facts as (N1 & N2 & N3 & N4 & N5 & N6 & N7).
  unfold run_tests_with_valgrind, bind, run, ret, write, exists_, copy2, raise.
  repeat (match goal with
          | |- context [match ?x with _ => _ end] => destruct x eqn:?
          | |- context [if ?b then _ else _] => destruct b eqn:?
          end; cbn [fst snd fs set_fs] in *); intros H; try discriminate;
  injection H as <-; split; auto; simplify_map_eq; eauto.
  all: repeat (match goal with
               | H : (match ?x with _ => _ end) = _ |- _ => destruct x eqn:?; simplify_eq
               end); cbn [fs set_fs]; simplify_map_eq; eauto.
Qed.

Lemma run_tests_clean_state (st : runner) (c : content) (r : proc_result)
    (m : gmap string content) :
  fs st !! test_executable = Some c ->
  w_exec w [test_executable; gtest_output temp_results_file] asan_env (fs st) = Some (r, m) ->
  Leak.check_memory_leaks (stderr r +:+ stdout r) = false ->
  default false (force_memory_leak_demo st) = false ->
  run_tests F w st =
    (Ok (if (returncode r =? 0)%Z && bool_decide (is_Some (m !! temp_results_file))
         then Some (stamped F w "test_results_" ".xml") else None),
     Runner (match m !! temp_results_file with
             | Some d => if (returncode r =? 0)%Z
                         then <[stamped F w "test_results_" ".xml" := d]> m else m
             | None => m
             end) false (force_memory_leak_demo st)).
Proof.
  destruct st as [fs0 l f]. cbn [fs force_memory_leak_demo].
  intros Hexe Hrun Hleak Hforce.
  unfold run_tests, bind, exists_, run, get, set_leaks, ret.
  cbn [fs]. rewrite Hexe, bool_decide_is_Some_Some. simpl. rewrite Hrun. simpl.
  rewrite Hleak. simpl. rewrite Hforce. simpl.
  destruct (returncode r =? 0)%Z; simpl;
    destruct (m !! temp_results_file) as [d|] eqn:Ht; simpl; try reflexivity.
  try rewrite bool_decide_is_Some_Some. unfold copy2. simpl. rewrite Ht. reflexivity.
Qed.

Lemma build_records_demo (st : runner) :
  force_memory_leak_demo (snd (build_project F w st)) =
    Some (String.eqb (PyStr.lower (default "" (w_demo_env w))) "true").
Proof.
  unfold build_project, bind, set_force, run, ret. cbn [fs].
  destruct (w_exec w _ [] _) as [[r1 m1]|]; cbn [fs set_fs]; [|reflexivity].
  destruct (negb _); [reflexivity|].
  destruct (w_exec w _ [] _) as [[r2 m2]|]; reflexivity.
Qed.

(** X3: once the AddressSanitizer run has started, the leak flag after
    the run step is the scan of its stderr followed by its stdout, or'ed
    with the demo flag; the Valgrind stage does not change it. *)
Theorem leak_flag_after_run (st : runner) (c : content) (r : proc_result)
    (m : gmap string content) :
  fs st !! test_executable = Some c ->
  w_exec w [test_executable; gtest_output temp_results_file] asan_env (fs st) = Some (r, m) ->
  memory_leaks_detected (snd (run_tests F w st)) =
    Leak.check_memory_leaks (stderr r +:+ stdout r) || default false (force_memory_leak_demo st).
Proof.
  intros Hexe Hrun.
  destruct (Leak.check_memory_leaks (stderr r +:+ stdout r)
            || default false (force_memory_leak_demo st)) eqn:Hesc.
  - exact (run_tests_escalated_flag F w st c r m Hexe Hrun Hesc).
  - apply orb_false_iff in Hesc as [Hleak Hforce].
    by rewrite (run_tests_clean_state st c r m Hexe Hrun Hleak Hforce).
Qed.

(** X4: without escalation the run step leaves the files of the
    AddressSanitizer run as they are, adding only the timestamped copy of
    the result file when the run exited with 0. *)
Theorem clean_run_frame (st : runner) (c : content) (r : proc_result)
    (m : gmap string content) :
  fs st !! test_executable = Some c ->
  w_exec w [test_executable; gtest_output temp_results_file] asan_env (fs st) = Some (r, m) ->
  Leak.check_memory_leaks (stderr r +:+ stdout r) = false ->
  default false (force_memory_leak_demo st) = false ->
  fs (snd (run_tests F w st)) =
    match m !! temp_results_file with
    | Some d => if (returncode r =? 0)%Z
                then <[stamped F w "test_results_" ".xml" := d]> m else m
    | None => m
    end.
Proof.
  intros Hexe Hrun Hleak Hforce.
  by rewrite (run_tests_clean_state st c r m Hexe Hrun Hleak Hforce).
Qed.

Lemma run_tests_returned_copy (st : runner) (p : string) :
  fst (run_tests F w st) = Ok (Some p) ->
  (p = stamped F w "test_results_" ".xml" \/ p = stamped F w "test_results_valgrind_" ".xml") /\
  fs (snd (run_tests F w st)) !! p = fs (snd (run_tests F w st)) !! temp_results_file /\
  is_Some (fs (snd (run_tests F w st)) !! p).
Proof.
  intros H.
  destruct (fs st !! test_executable) as [c|] eqn:Hexe;
    [|rewrite (run_tests_missing F w st Hexe) in H; discriminate].
  destruct (w_exec w [test_executable; gtest_output temp_results_file] asan_env (fs st))
    as [[r m]|] eqn:Hrun.
  2:{ unfold run_tests, bind, exists_, run in H. rewrite Hexe, bool_decide_is_Some_Some in H.
      simpl in H. rewrite Hrun in H. discriminate. }
  destruct (Leak.check_memory_leaks (stderr r +:+ stdout r)
            || default false (force_memory_leak_demo st)) eqn:Hesc.
  - rewrite (run_tests_escalated F w st c r m Hexe Hrun Hesc) in H |- *.
    destruct (valgrind_result_copy _ p H) as (-> & Hc & Hs). auto.
  - apply orb_false_iff in Hesc as [Hleak Hforce].
    rewrite (run_tests_clean_state st c r m Hexe Hrun Hleak Hforce) in H |- *.
    pose proof path_facts as (_ & _ & _ & _ & N & _).
    destruct (m !! temp_results_file) as [d|] eqn:Ht;
      destruct (returncode r =? 0)%Z; cbn [fst snd fs andb] in H |- *; try discriminate.
    rewrite bool_decide_is_Some_Some in H.
    injection H as <-. simplify_map_eq; try rewrite Ht; eauto.
Qed.

(** X5: a returned result path is the timestamped copy in the reports
    directory ([test_results_*.xml] or [test_results_valgrind_*.xml]),
    and after the run step it holds what [build/test_results.xml] holds. *)
Theorem returned_path_is_copy (st : runner) (p : string) :
  fst (run_tests F w st) = Ok (Some p) ->
  (p = stamped F w "test_results_" ".xml" \/ p = stamped F w "test_results_valgrind_" ".xml") /\
  fs (snd (run_tests F w st)) !! p = fs (snd (run_tests F w st)) !! temp_results_file /\
  is_Some (fs (snd (run_tests F w st)) !! p).
Proof. exact (run_tests_returned_copy st p). Qed.

(** X6: with [ENABLE_MEMORY_LEAK_DEMO] set to "true" in any letter case, a
    successful build makes the run step go to the Valgrind stage even when
    the AddressSanitizer output shows no leak. *)
Theorem demo_mode_escalates (st0 st : runner) (c : content) (r : proc_result)
    (m : gmap string content) :
  build_project F w st0 = (Ok true, st) ->
  String.eqb (PyStr.lower (default "" (w_demo_env w))) "true" = true ->
  fs st !! test_executable = Some c ->
  w_exec w [test_executable; gtest_output temp_results_file] asan_env (fs st) = Some (r, m) ->
  run_tests F w st =
    run_tests_with_valgrind F w test_executable temp_results_file (Runner m true (Some true)).
Proof.
  intros Hb Hdemo Hexe Hrun.
  pose proof (build_records_demo st0) as Hf. rewrite Hb, Hdemo in Hf. simpl in Hf.
  rewrite (run_tests_escalated F w st c r m Hexe Hrun); rewrite Hf; [reflexivity|].
  apply orb_true_r.
Qed.

(** X7: when Valgrind is installed but leaves no [valgrind_results.xml]
    while a log or a result file exists, the escalator raises
    [UnboundLocalError] ([shutil] is imported only in the branch that
    copies the XML file). *)
Theorem valgrind_without_xml_raises (st : runner) (wr r2 : proc_result)
    (m1 m2 : gmap string content) :
  w_exec w ["which"; "valgrind"]%string [] (fs st) = Some (wr, m1) ->
  returncode wr = 0%Z ->
  w_exec w (valgrind_cmd test_executable temp_results_file) [] m1 = Some (r2, m2) ->
  m2 !! valgrind_xml = None ->
  is_Some (m2 !! valgrind_log) \/ is_Some (m2 !! temp_results_file) ->
  fst (run_tests_with_valgrind F w test_executable temp_results_file st) = Halt Raised.
Proof.
  intros Hwhich Hrc Hvg Hx Hany.
  unfold run_tests_with_valgrind, bind, run, ret, write, exists_, copy2, raise.
  rewrite Hwhich. simpl. rewrite Hrc. simpl. cbn [fs set_fs]. rewrite Hvg. cbn [fs set_fs].
  rewrite Hx. simpl.
  destruct (m2 !! valgrind_log) as [cl|] eqn:Hl; simpl.
  - try rewrite bool_decide_is_Some_Some; reflexivity.
  - destruct Hany as [[? ?]|[ct Ht]]; [congruence|]. rewrite Ht. simpl.
    try rewrite bool_decide_is_Some_Some; reflexivity.
Qed.

End Facts.
End RunStepFacts.

(** ** More properties of the leak scanner *)
Module LeakScanFacts.
Import StrFacts.

Lemma str_app_cons (x : ascii) (a b : string) :
  (String x a +:+ b = String x (a +:+ b))%string.
Proof. reflexivity. Qed.

Lemma str_app_assoc (a b c : string) : (a +:+ (b +:+ c) = (a +:+ b) +:+ c)%string.
Proof. induction a as [|x a IH]; [done|]. by rewrite !str_app_cons, IH. Qed.

Lemma contains_app (n a b : string) :
  PyStr.contains n a = true \/ PyStr.contains n b = true ->
  PyStr.contains n (a +:+ b) = true.
Proof.
  rewrite !contains_spec. intros [(pre & suf & ->)|(pre & suf & ->)].
  - exists pre, (suf +:+ b)%string. by rewrite <- !str_app_assoc.
  - exists (a +:+ pre)%string, suf. by rewrite <- !str_app_assoc.
Qed.

(** X8: the scan of one text followed by another flags every signature
    either part holds, so [run_tests], which scans stderr followed by
    stdout, notices a signature printed on either stream. *)
Theorem leak_scan_concat (a b : string) :
  Leak.check_memory_leaks a || Leak.check_memory_leaks b = true ->
  Leak.check_memory_leaks (a +:+ b) = true.
Proof.
  unfold Leak.check_memory_leaks. rewrite lower_app, orb_true_iff, !existsb_exists.
  intros [(i & Hi & Hc)|(i & Hi & Hc)]; exists i; split; auto; apply contains_app; auto.
Qed.

End LeakScanFacts.

(** ** More properties of the report generator *)
Module GenReportFacts.
Import Views LeakScanFacts.

Section Generic.
Variable F : Type.
Variable instant : Type.
Variable tplus : instant -> F -> instant.
Variable float_str : F -> string.

Lemma gen_entries_chain (cfg : config) (start : instant) (tests : list (gtest F)) :
  map x_start (gen_entries F instant tplus float_str cfg start tests).1
    ++ [(gen_entries F instant tplus float_str cfg start tests).2]
    = start :: map x_finish (gen_entries F instant tplus float_str cfg start tests).1 /\
  map x_finish (gen_entries F instant tplus float_str cfg start tests).1 =
    zip_with tplus (map x_start (gen_entries F instant tplus float_str cfg start tests).1)
      (map gt_time tests) /\
  length (gen_entries F instant tplus float_str cfg start tests).1 = length tests.
Proof.
  revert start. induction tests as [|t tests IH]; intros start; simpl; [done|].
  specialize (IH (tplus start (gt_time t))).
  destruct (gen_entries F instant tplus float_str cfg (tplus start (gt_time t)) tests)
    as [es fin]. simpl in *. destruct IH as (H1 & H2 & H3).
  rewrite H1, H2. auto.
Qed.

(** X9: in the generator's report the first entry starts at the
    execution's start, each later entry starts when the one before it
    finishes (across suite boundaries too), and each entry finishes its
    case's time after it starts; there is one entry per case. *)
Theorem gen_report_entries_chain (cfg : config) (start : instant) (ss : list (gsuite F)) :
  (exists fin, map x_start (gen_suite_entries F instant tplus float_str cfg start ss) ++ [fin]
               = start :: map x_finish (gen_suite_entries F instant tplus float_str cfg start ss)) /\
  map x_finish (gen_suite_entries F instant tplus float_str cfg start ss) =
    zip_with tplus (map x_start (gen_suite_entries F instant tplus float_str cfg start ss))
      (map gt_time (concat (map gs_tests ss))) /\
  length (gen_suite_entries F instant tplus float_str cfg start ss) =
    length (concat (map gs_tests ss)).
Proof.
  revert start. induction ss as [|s ss IH]; intros start; simpl.
  - split; [by exists start|done].
  - pose proof (gen_entries_chain cfg start (gs_tests s)) as (H1 & H2 & H3).
    destruct (gen_entries F instant tplus float_str cfg start (gs_tests s)) as [es fin].
    simpl in *. destruct (IH fin) as ((fin' & J1) & J2 & J3).
    split; [|split].
    + exists fin'. rewrite !map_app, <- app_assoc, J1.
      change (fin :: map x_finish (gen_suite_entries F instant tplus float_str cfg fin ss))
        with ([fin] ++ map x_finish (gen_suite_entries F instant tplus float_str cfg fin ss)).
      rewrite app_assoc, H1. reflexivity.
    + rewrite !map_app, zip_with_app, H2, J2; [reflexivity|].
      rewrite length_map. exact (eq_trans H3 (eq_sym (length_map _ _))).
    + rewrite length_app, H3, J3, length_app. reflexivity.
Qed.

Lemma str_app_nil_r (a : string) : (a +:+ "")%string = a.
Proof. induction a as [|x a IH]; [done|]. by rewrite str_app_cons, IH. Qed.

End Generic.

(** X10: the generator's comment for a parsed case adds the details of
    only the marker that decided its status: none when the case has a
    [skipped] child, the error's when it has an [error] child, the
    failure's when it has only a [failure] child. *)
Theorem gen_comment_details (F : Type) (py_float : string -> option F) (f0 : F)
    (float_str : F -> string) (tc : element) (t : gtest F) :
  parse_case F py_float f0 tc = Some t ->
  gen_comment F float_str t =
    (("Execution time: " +:+ float_str (gt_time t) +:+ "s" +:+ PyStr.nl
      +:+ "Class: " +:+ get_or tc "classname" "")
     +:+ match find tc "skipped", find tc "error", find tc "failure" with
         | Some _, _, _ => ""
         | None, Some e, _ => marker_details "ERROR:" (marker_of e)
         | None, None, Some f => marker_details "FAILURE:" (marker_of f)
         | None, None, None => ""
         end)%string.
Proof.
  unfold parse_case. destruct (float_attr F py_float f0 tc "time") as [tm|]; simpl;
    [|discriminate].
  intros H. injection H as <-. unfold gen_comment. simpl.
  destruct (find tc "skipped"), (find tc "error"), (find tc "failure"); simpl;
    rewrite ?str_app_nil_r; reflexivity.
Qed.

End GenReportFacts.

(** ** The saved report and the result document *)
Module SavedReportFacts.
Import Runner RunnerFacts Views GenReportFacts.

Section Facts.
Variable F : Type.
Variable w : world F.

(** X11: when the runner finishes normally, the report it saved has one
    entry per child of every suite of the document left in
    [build/test_results.xml], with the key and status that case gives. *)
Theorem saved_report_follows_cases (st st' : runner) (b : bool) :
  run_main F w st = (Ok b, st') ->
  exists cnt root rep,
    fs st' !! temp_results_file = Some cnt /\
    w_xml_decode w (file_text F w cnt) = Some root /\
    fs st' !! report_path F w = Some (Json rep) /\
    map (fun e => (re_testKey e, re_status e)) (report_tests rep) =
    map (fun tc => (runner_key (ET.get tc "name"),
                    if find tc "failure" then "FAILED"%string else "PASSED"%string))
        (suite_cases root).
Proof.
  intros H.
  destruct (run_main_ok_inv F w st st' b H)
    as (st1 & st2 & p & cnt & t & Hb & Hr & Hp & Ht & _ & _ & ->).
  pose proof (RunStepFacts.run_tests_returned_copy F w st1 p) as Hc.
  rewrite Hr in Hc. destruct (Hc eq_refl) as (_ & Hcopy & _). cbn [snd] in Hcopy.
  destruct (w_xml_decode w (file_text F w cnt)) as [root|] eqn:Hd; [|discriminate].
  assert (Hneq : report_path F w <> temp_results_file)
    by (unfold report_path, stamped; simpl; discriminate).
  exists cnt, root, (generate_xray_report F w t "CHATCPP-TP-001"
                       (memory_analysis_of (memory_leaks_detected st2))).
  cbn [fs set_fs]. split; [|split; [exact Hd|split]].
  - rewrite lookup_insert_ne by congruence. by rewrite <- Hcopy.
  - by simplify_map_eq.
  - exact (RunnerParseFacts.report_follows_cases F w root t _ _ Ht).
Qed.

End Facts.

(** X12: the status of a runner entry is FAILED exactly when the case
    has a [failure] child, and its comment is the execution time, followed
    by ["Failure: " + text] only when that child has a non-empty text; so
    a failure without text gives a FAILED entry whose comment has no
    failure line. *)
Theorem runner_comment_failure_text (F : Type) (w : world F) (tc : element) (t : rtest F) :
  parse_rcase F (w_py_float w) (w_f0 w) tc = Some t ->
  re_status (runner_entry F w t) =
    (if find tc "failure" then "FAILED" else "PASSED")%string /\
  re_comment (runner_entry F w t) =
    (("Execution time: " +:+ w_float_str w (rt_time t) +:+ "s")
     +:+ match find tc "failure" ≫= text with
         | Some f => if String.eqb f "" then "" else PyStr.nl +:+ "Failure: " +:+ f
         | None => ""
         end)%string.
Proof.
  intros H. destruct (RunnerParseFacts.parse_rcase_fields _ _ _ tc t H) as (_ & Hs & Hf).
  unfold runner_entry. cbn [re_comment re_status]. rewrite Hs, Hf. split;
    [by destruct (find tc "failure")|].
  destruct (find tc "failure" ≫= text) as [f|]; [destruct (String.eqb f "")|];
    rewrite ?str_app_nil_r; reflexivity.
Qed.

End SavedReportFacts.

(** ** Sample runs of the properties above *)
Module ExtraSamples.
Import Runner SampleWorld Views.

Lemma runner_report_follows_cases_witness :
  exists t,
    parse_test_results_doc DecFloat.F DecFloat.py_float DecFloat.f0 (Some ExtraDocs.mixed)
      = Some t /\
    map (fun e => (re_testKey e, re_status e))
        (report_tests (generate_xray_report _ (world_of failing_run) t "CHATCPP-TP-001" "ASan"))
    = [("CHATCPP-TC-None", "PASSED"); ("CHATCPP-TC-001", "FAILED");
       ("CHATCPP-TC-Broadcast", "PASSED"); ("CHATCPP-TC-002", "PASSED")]%string.
Proof.
  destruct (parse_test_results_doc DecFloat.F DecFloat.py_float DecFloat.f0 (Some ExtraDocs.mixed))
    as [t|] eqn:E; [|vm_compute in E; discriminate].
  exists t. split; [reflexivity|].
  rewrite (RunnerParseFacts.runner_report_follows_cases _ (world_of failing_run)
             ExtraDocs.mixed t "CHATCPP-TP-001" "ASan" E).
  vm_compute. reflexivity.
Defined.

Lemma runner_counts_from_attributes_witness :
  exists t,
    parse_test_results_doc DecFloat.F DecFloat.py_float DecFloat.f0 (Some ExtraDocs.mixed)
      = Some t /\
    r_total t = attr_total "tests" (children ExtraDocs.mixed) /\
    r_failed t = attr_total "failures" (children ExtraDocs.mixed) /\
    r_skipped t = attr_total "skipped" (children ExtraDocs.mixed) /\
    length (r_tests t) = length (suite_cases ExtraDocs.mixed).
Proof.
  destruct (parse_test_results_doc DecFloat.F DecFloat.py_float DecFloat.f0 (Some ExtraDocs.mixed))
    as [t|] eqn:E; [|vm_compute in E; discriminate].
  exists t. split; [reflexivity|].
  exact (RunnerParseFacts.runner_counts_from_attributes _ DecFloat.py_float DecFloat.f0
           ExtraDocs.mixed t E).
Defined.

Lemma leak_flag_after_run_witness :
  memory_leaks_detected (snd (run_tests _ (world_of leak_simulated) st_built)) =
    Leak.check_memory_leaks (stderr (ok_proc 1 leak_stderr) +:+ stdout (ok_proc 1 leak_stderr))
    || default false (force_memory_leak_demo st_built).
Proof.
  exact (RunStepFacts.leak_flag_after_run _ (world_of leak_simulated) st_built (Text "ELF")
           (ok_proc 1 leak_stderr) leak_fs
           ltac:(vm_compute; reflexivity) ltac:(vm_compute; reflexivity)).
Defined.

Lemma clean_run_frame_witness :
  fs (snd (run_tests _ (world_of passing_run) st_built)) =
    <[stamped _ (world_of passing_run) "test_results_" ".xml" :=
        Text (render (sc_doc passing_run))]> (with_doc passing_run true built_fs).
Proof.
  rewrite (RunStepFacts.clean_run_frame _ (world_of passing_run) st_built (Text "ELF")
             (ok_proc 0 "") (with_doc passing_run true built_fs)
             ltac:(vm_compute; reflexivity) ltac:(vm_compute; reflexivity)
             ltac:(vm_compute; reflexivity) ltac:(vm_compute; reflexivity)).
  vm_compute. reflexivity.
Defined.

Lemma returned_path_is_copy_witness :
  fst (run_tests _ (world_of passing_run) st_built)
    = Ok (Some (stamped _ (world_of passing_run) "test_results_" ".xml")) /\
  fs (snd (run_tests _ (world_of passing_run) st_built))
    !! stamped _ (world_of passing_run) "test_results_" ".xml"
    = fs (snd (run_tests _ (world_of passing_run) st_built)) !! temp_results_file.
Proof.
  assert (H : fst (run_tests _ (world_of passing_run) st_built)
              = Ok (Some (stamped _ (world_of passing_run) "test_results_" ".xml")))
    by (vm_compute; reflexivity).
  split; [exact H|].
  exact (proj1 (proj2 (RunStepFacts.returned_path_is_copy _ (world_of passing_run) st_built _ H))).
Defined.

(** With [ENABLE_MEMORY_LEAK_DEMO=TRUE] a clean passing run goes to the
    Valgrind stage. *)
Lemma demo_mode_escalates_witness :
  Leak.check_memory_leaks ("" +:+ "") = false /\
  run_tests _ (world_with passing_run (exec passing_run) (Some "TRUE"%string))
    (Runner built_fs false (Some true)) =
  run_tests_with_valgrind _ (world_with passing_run (exec passing_run) (Some "TRUE"%string))
    test_executable temp_results_file
    (Runner (with_doc passing_run true built_fs) true (Some true)).
Proof.
  split; [vm_compute; reflexivity|].
  exact (RunStepFacts.demo_mode_escalates _ (world_with passing_run (exec passing_run) (Some "TRUE"%string))
           (initial empty_fs) (Runner built_fs false (Some true)) (Text "ELF") (ok_proc 0 "")
           (with_doc passing_run true built_fs)
           ltac:(vm_compute; reflexivity) ltac:(vm_compute; reflexivity)
           ltac:(vm_compute; reflexivity) ltac:(vm_compute; reflexivity)).
Defined.

(** A Valgrind that leaves no XML file: the escalator raises, and the
    script exits with 1 without a report. *)
Lemma valgrind_without_xml_raises_witness :
  fst (run_tests_with_valgrind _ (world_with leak_valgrind (exec_no_xml leak_valgrind) None)
         test_executable temp_results_file (Runner leak_fs true (Some false))) = Halt Raised /\
  fst (script _ (world_with leak_valgrind (exec_no_xml leak_valgrind) None) empty_fs) = 1%Z.
Proof.
  split; [|vm_compute; reflexivity].
  exact (RunStepFacts.valgrind_without_xml_raises _
           (world_with leak_valgrind (exec_no_xml leak_valgrind) None)
           (Runner leak_fs true (Some false)) (ok_proc 0 "") (ok_proc 1 "") leak_fs
           (<[valgrind_log := Text simulated_log]> (with_doc leak_valgrind true leak_fs))
           ltac:(vm_compute; reflexivity) ltac:(vm_compute; reflexivity)
           ltac:(vm_compute; reflexivity) ltac:(vm_compute; reflexivity)
           ltac:(left; vm_compute; eexists; reflexivity)).
Defined.

Lemma leak_scan_concat_witness :
  Leak.check_memory_leaks (leak_stderr +:+ "[  PASSED  ] 3 tests.") = true.
Proof.
  apply LeakScanFacts.leak_scan_concat. vm_compute. reflexivity.
Defined.

Lemma gen_comment_details_witness :
  exists t,
    parse_case DecFloat.F DecFloat.py_float DecFloat.f0 Docs.error_case = Some t /\
    gen_comment DecFloat.F DecFloat.float_str t =
      (("Execution time: " +:+ DecFloat.float_str (gt_time t) +:+ "s" +:+ PyStr.nl
        +:+ "Class: MessageTest")
       +:+ marker_details "ERROR:" (Marker "exception thrown" "" ""))%string.
Proof.
  destruct (parse_case DecFloat.F DecFloat.py_float DecFloat.f0 Docs.error_case)
    as [t|] eqn:E; [|vm_compute in E; discriminate].
  exists t. split; [reflexivity|].
  etransitivity;
    [exact (GenReportFacts.gen_comment_details _ DecFloat.py_float DecFloat.f0 DecFloat.float_str
              Docs.error_case t E)|].
  reflexivity.
Defined.

Lemma saved_report_follows_cases_witness :
  exists b st',
    run_main _ (world_of passing_run) (initial empty_fs) = (Ok b, st') /\
    exists cnt root rep,
      fs st' !! temp_results_file = Some cnt /\
      w_xml_decode (world_of passing_run) (file_text _ (world_of passing_run) cnt) = Some root /\
      fs st' !! report_path _ (world_of passing_run) = Some (Json rep) /\
      map (fun e => (re_testKey e, re_status e)) (report_tests rep) =
      map (fun tc => (runner_key (ET.get tc "name"),
                      if find tc "failure" then "FAILED"%string else "PASSED"%string))
          (suite_cases root).
Proof.
  destruct (run_main _ (world_of passing_run) (initial empty_fs)) as [[b|h] st'] eqn:E;
    [|vm_compute in E; discriminate].
  exists b, st'. split; [reflexivity|].
  exact (SavedReportFacts.saved_report_follows_cases _ (world_of passing_run) _ st' b E).
Defined.

(** A [failure] child with a message attribute but no text. *)
Lemma runner_comment_failure_text_witness :
  exists t,
    parse_rcase DecFloat.F DecFloat.py_float DecFloat.f0 Docs.failure_and_skipped_case = Some t /\
    re_status (runner_entry _ (world_of failing_run) t) = "FAILED"%string /\
    re_comment (runner_entry _ (world_of failing_run) t) =
      (("Execution time: " +:+ DecFloat.float_str (rt_time t) +:+ "s") +:+ "")%string.
Proof.
  destruct (parse_rcase DecFloat.F DecFloat.py_float DecFloat.f0 Docs.failure_and_skipped_case)
    as [t|] eqn:E; [|vm_compute in E; discriminate].
  exists t. split; [reflexivity|].
  exact (SavedReportFacts.runner_comment_failure_text _ (world_of failing_run) _ t E).
Defined.

End ExtraSamples.
